(** * flow-agentkit-starter: wallet bootstrap, chat hook and wallet hook

    A shallow embedding of

    - [src/app/api/agent/prepare-agentkit.ts]: the custom Flow action
      provider and [prepareAgentkitAndWalletProvider];
    - [src/app/hooks/useAgent.ts]: [messageAgent], [useMetaMask] and
      [useAgent];
    - [src/app/page.tsx]: the [onSendMessage] handler of the page.

    Server code runs in a state-and-exception monad over a [World] that holds
    [process.env], the file system, [window], the console and the position
    in the random stream.  The functions of viem, AgentKit and of the
    JavaScript runtime ([JSON.parse], [JSON.stringify]) are the fields of
    the class [Runtime]; every one of them may throw.

    The React hooks are event systems: an async function is cut at each
    [await] into segments, and every segment is one atomic transition of the
    hook state (React commits the updates queued by a segment before the
    next event is delivered).

    Strings are Rocq strings, one [ascii] for each UTF-16 code unit below
    256. *)

From Stdlib Require Import String Ascii List Bool Arith Lia.
From stdpp Require Import base strings gmap list.

Set Warnings "-register-all".

(** ** JavaScript values, errors and completion records *)

Module Js.

(** The values that can flow through the modelled code: [undefined] and
    the JSON values.  A number is carried by its literal: the code never
    computes with one. *)
Inductive Value : Type :=
| VUndefined
| VNull
| VBool (b : bool)
| VNumber (literal : string)
| VString (s : string)
| VArray (items : list Value)
| VObject (fields : list (string * Value)).

(** An [Error] object: its [name], its [message] and its [cause]. *)
Inductive Error : Type :=
| mkError (name message : string) (cause : option Error).

Definition name (e : Error) : string := let 'mkError n _ _ := e in n.
Definition message (e : Error) : string := let 'mkError _ m _ := e in m.
Definition cause (e : Error) : option Error := let 'mkError _ _ c := e in c.

(** [new Error(msg)]: no cause is passed. *)
Definition new_Error (msg : string) : Error := mkError "Error" msg None.
Definition TypeError (msg : string) : Error := mkError "TypeError" msg None.
Definition SyntaxError (msg : string) : Error := mkError "SyntaxError" msg None.

(** A call either returns or throws. *)
Inductive Result (A : Type) : Type :=
| Ok (a : A)
| Throw (e : Error).
Arguments Ok {A} a.
Arguments Throw {A} e.

(** Truthiness of a [string | undefined | null]: the empty string is
    falsy like the absent one. *)
Definition truthy (o : option string) : bool :=
  match o with
  | Some s => negb (String.eqb s "")
  | None => false
  end.

Fixpoint lookup_field (k : string) (fields : list (string * Value)) : Value :=
  match fields with
  | [] => VUndefined
  | (k', v) :: rest => if String.eqb k k' then v else lookup_field k rest
  end.

(** [o.k] for a data property [k]: a [TypeError] on [undefined] and
    [null], [undefined] on the other primitives and on arrays (the code
    reads only property names that no prototype defines). *)
Definition get (o : Value) (k : string) : Result Value :=
  match o with
  | VUndefined | VNull => Throw (TypeError ("Cannot read properties of undefined or null, reading " +:+ k))
  | VObject fields => Ok (lookup_field k fields)
  | _ => Ok VUndefined
  end.

(** [String.prototype.startsWith]. *)
Fixpoint startsWith (s p : string) : bool :=
  match p, s with
  | EmptyString, _ => true
  | String a p', String b s' => if Ascii.eqb a b then startsWith s' p' else false
  | String _ _, EmptyString => false
  end.

(** [v.startsWith(p)]: only a string has the method. *)
Definition call_startsWith (v : Value) (p : string) : Result bool :=
  match v with
  | VString s => Ok (startsWith s p)
  | VUndefined | VNull => Throw (TypeError "Cannot read properties of undefined or null, reading startsWith")
  | _ => Throw (TypeError "startsWith is not a function")
  end.

(** White space and line terminators among the code units below 256:
    TAB, LF, VT, FF, CR, SP and NBSP. *)
Definition is_white_space (c : ascii) : bool :=
  let n := nat_of_ascii c in
  ((9 <=? n) && (n <=? 13)) || (n =? 32) || (n =? 160).

Fixpoint trimStart (s : string) : string :=
  match s with
  | String c s' => if is_white_space c then trimStart s' else s
  | EmptyString => EmptyString
  end.

(** Drops the trailing white space: a character is kept when it is not
    white space or when something is kept after it. *)
Fixpoint trimEnd (s : string) : string :=
  match s with
  | String c s' =>
      match trimEnd s' with
      | EmptyString => if is_white_space c then EmptyString else String c EmptyString
      | t => String c t
      end
  | EmptyString => EmptyString
  end.

(** [String.prototype.trim]. *)
Definition trim (s : string) : string := trimEnd (trimStart s).

End Js.

Import Js.

(** ** The server side: [prepare-agentkit.ts] *)

Module Server.

(** *** The world the server code runs in *)

Inductive Level : Type := LLog | LInfo | LWarn | LError.

(** One call of a [console] method: the text and, for [console.error(text,
    e)], the error object that was passed. *)
Record LogEntry : Type := {
  level : Level;
  text : string;
  detail : option Js.Error;
}.

(** The object types of viem, AgentKit and the browser that the code only
    passes around. *)
Class Platform : Type := {
  Ethereum : Type;          (* the provider injected at [window.ethereum] *)
  Account : Type;           (* viem: a local account *)
  WalletClient : Type;      (* viem: a wallet client *)
  WalletProvider : Type;    (* AgentKit: a wallet provider *)
  SdkActionProvider : Type; (* AgentKit: a built-in action provider *)
  AgentKit : Type;          (* AgentKit: the agent kit *)
}.

Section World.
Context {P : Platform}.

(** [window], when there is one; [ethereum] is [None] when the property is
    undefined. *)
Record Window : Type := {
  ethereum : option Ethereum;
}.

(** The file system is a flat map of regular files that can always be read
    and written. *)
Record World : Type := {
  env : gmap string string;    (* [process.env] *)
  fs : gmap string string;     (* the regular files: path to utf8 text *)
  window : option Window;      (* [None]: [typeof window === 'undefined'] *)
  console : list LogEntry;     (* what was logged, oldest first *)
  entropy : nat;               (* how many random keys were drawn *)
}.

Definition set_fs (f : gmap string string) (w : World) : World :=
  {| env := env w; fs := f; window := window w; console := console w; entropy := entropy w |}.

Definition set_console (c : list LogEntry) (w : World) : World :=
  {| env := env w; fs := fs w; window := window w; console := c; entropy := entropy w |}.

Definition set_entropy (n : nat) (w : World) : World :=
  {| env := env w; fs := fs w; window := window w; console := console w; entropy := n |}.

(** *** State and exceptions *)

Definition M (A : Type) : Type := World -> World * Result A.

Definition ret {A : Type} (a : A) : M A := fun w => (w, Ok a).

Definition throw {A : Type} (e : Js.Error) : M A := fun w => (w, Throw e).

Definition bind {A B : Type} (c : M A) (k : A -> M B) : M B :=
  fun w =>
    match c w with
    | (w', Ok a) => k a w'
    | (w', Throw e) => (w', Throw e)
    end.

(** Reads the world. *)
Definition gets {A : Type} (f : World -> A) : M A := fun w => (w, Ok (f w)).

(** A call of a function that has no effect on the world. *)
Definition call {A : Type} (r : Result A) : M A := fun w => (w, r).

(** [try { body } catch (e) { handler }]: the effects of [body] up to the
    throw stay. *)
Definition try_catch {A : Type} (body : M A) (handler : Js.Error -> M A) : M A :=
  fun w =>
    match body w with
    | (w', Ok a) => (w', Ok a)
    | (w', Throw e) => handler e w'
    end.

(** The world after one more call of a [console] method. *)
Definition logged (l : Level) (t : string) (d : option Js.Error) (w : World) : World :=
  set_console (console w ++ [{| level := l; text := t; detail := d |}]) w.

Definition console_write (l : Level) (t : string) (d : option Js.Error) : M unit :=
  fun w => (logged l t d w, Ok tt).

Definition console_log (t : string) : M unit := console_write LLog t None.
Definition console_info (t : string) : M unit := console_write LInfo t None.
Definition console_error (t : string) (e : Js.Error) : M unit := console_write LError t (Some e).

(** [process.env[name]] *)
Definition process_env (name : string) : M (option string) :=
  gets (fun w => env w !! name).

(** [fs.existsSync(path)] *)
Definition fs_existsSync (path : string) : M bool :=
  gets (fun w => bool_decide (is_Some (fs w !! path))).

(** [fs.readFileSync(path, "utf8")]: throws when there is no such file. *)
Definition fs_readFileSync (path : string) : M string :=
  fun w =>
    match fs w !! path with
    | Some content => (w, Ok content)
    | None => (w, Throw (new_Error ("ENOENT: no such file or directory, open " +:+ path)))
    end.

(** [fs.writeFileSync(path, data)]: creates or replaces the file. *)
Definition fs_writeFileSync (path data : string) : M unit :=
  fun w => (set_fs (<[path := data]> (fs w)) w, Ok tt).

End World.

Notation "'let*' x := c 'in' k" := (bind c (fun x => k))
  (at level 10, x pattern, c at level 100, k at level 200).
Notation "c ;; k" := (bind c (fun _ => k))
  (at level 100, k at level 200, right associativity).


(** *** The SDK *)

Section Sdk.
Context {P : Platform}.

(** The chain description handed to viem. *)
Record Currency : Type := {
  currency_name : string;
  symbol : string;
  decimals : nat;
}.

Record Explorer : Type := {
  explorer_name : string;
  url : string;
}.

Record Chain : Type := {
  id : nat;
  chain_name : string;
  network : string;
  nativeCurrency : Currency;
  rpcUrls_default_http : list string;
  rpcUrls_public_http : list string;
  blockExplorers_default : Explorer;
  testnet : bool;
}.

(** viem transports: [custom(provider)] and [http()]. *)
Inductive Transport : Type :=
| custom (provider : Ethereum)
| http.

(** The argument of [createWalletClient]. *)
Record WalletClientConfig : Type := {
  account : option Account;
  chain : Chain;
  transport : Transport;
}.

(** The argument of [cdpApiActionProvider]. *)
Record CdpConfig : Type := {
  apiKeyName : option string;
  apiKeyPrivateKey : option string;
}.

(** The JSON schema of the parameters of an action, as far as the source
    writes one: an object with string properties. *)
Record ParameterSchema : Type := {
  schema_type : string;
  properties : list (string * (string * string)); (* name, type, description *)
  required : list string;
}.

Record Balance : Type := {
  balance : string;
}.

(** An action of a provider written in this repository. *)
Record Action : Type := {
  description : string;
  parameters : ParameterSchema;
  execute : Value -> M Balance;
}.

Record CustomActionProvider : Type := {
  provider_name : string;
  actions : list (string * Action);
}.

Inductive ActionProvider : Type :=
| Builtin (p : SdkActionProvider)
| Custom (p : CustomActionProvider).

(** The functions of the JavaScript runtime, of viem and of AgentKit that
    the code calls.  [JSON_stringify] takes the properties of the object
    literal it is called on; [generatePrivateKey n] is the [n]-th key of
    the random stream. *)
Class Runtime : Type := {
  JSON_parse : string -> Result Value;
  JSON_stringify : list (string * Value) -> string;
  generatePrivateKey : nat -> string;
  privateKeyToAccount : Value -> Result Account;
  createWalletClient : WalletClientConfig -> Result WalletClient;
  ViemWalletProvider : WalletClient -> Result WalletProvider;
  walletActionProvider : Result SdkActionProvider;
  erc20ActionProvider : Result SdkActionProvider;
  cdpApiActionProvider : CdpConfig -> Result SdkActionProvider;
  AgentKit_from : WalletProvider -> list ActionProvider -> Result AgentKit;
}.

(** What [JSON.parse] and [JSON.stringify] guarantee for the persisted
    record: the text written for [{ privateKey }] parses back to it. *)
Class JsonRoundTrip (R : Runtime) : Prop := {
  parse_stringify_privateKey (k : string) :
    JSON_parse (JSON_stringify [("privateKey", VString k)])
    = Ok (VObject [("privateKey", VString k)]);
}.

Context {R : Runtime}.

(** *** The source *)

Definition WALLET_DATA_FILE : string := "wallet_data.txt".

Definition flowTestnet : Chain := {|
  id := 545;
  chain_name := "Flow Testnet";
  network := "flow-testnet";
  nativeCurrency := {| currency_name := "FLOW"; symbol := "FLOW"; decimals := 18 |};
  rpcUrls_default_http := ["https://testnet.evm.nodes.onflow.org"];
  rpcUrls_public_http := ["https://testnet.evm.nodes.onflow.org"];
  blockExplorers_default := {| explorer_name := "Flowscan"; url := "https://testnet.flowscan.org" |};
  testnet := true;
|}.

(** The template literal [`0x${address}`], on the strings that reach it. *)
Definition template_0x (address : Value) : Value :=
  match address with
  | VString a => VString ("0x" +:+ a)
  | v => v
  end.

(** [execute] of [getFlowBalance]: the parameter pattern [{ address }] is
    matched before the [try]; [address0x] is computed and not used. *)
Definition getFlowBalance_execute (args : Value) : M Balance :=
  let* address := call (get args "address") in
  try_catch
    (let* has0x := call (call_startsWith address "0x") in
     let address0x := if has0x then address else template_0x address in
     ret {| balance := "10.0" |})
    (fun error =>
       console_error "Error getting Flow balance:" error ;;
       throw error).

Definition createFlowActionProvider : CustomActionProvider := {|
  provider_name := "flow";
  actions := [
    ("getFlowBalance", {|
       description := "Get the FLOW token balance of an account";
       parameters := {|
         schema_type := "object";
         properties := [("address", ("string", "The Flow account address"))];
         required := ["address"];
       |};
       execute := getFlowBalance_execute;
     |})
  ];
|}.

(** [typeof window !== 'undefined' && window.ethereum]: the provider when
    the conjunction is truthy. *)
Definition isClient (w : World) : option Ethereum :=
  match window w with
  | Some win => ethereum win
  | None => None
  end.

(** [generatePrivateKey()]: draws the next key of the random stream. *)
Definition generatePrivateKey_call : M string :=
  fun w => (set_entropy (S (entropy w)) w, Ok (generatePrivateKey (entropy w))).

(** Lines 146 to 159: the private key of the local wallet. *)
Definition resolvePrivateKey : M Value :=
  let* privateKey := process_env "PRIVATE_KEY" in
  if negb (truthy privateKey) then
    let* found := fs_existsSync WALLET_DATA_FILE in
    if found then
      let* content := fs_readFileSync WALLET_DATA_FILE in
      let* data := call (JSON_parse content) in
      let* privateKey := call (get data "privateKey") in
      console_info "Found private key in wallet_data.txt" ;;
      ret privateKey
    else
      let* privateKey := generatePrivateKey_call in
      fs_writeFileSync WALLET_DATA_FILE
        (JSON_stringify [("privateKey", VString privateKey)]) ;;
      console_log "Created new private key and saved to wallet_data.txt" ;;
      console_log "We recommend you save this private key to your .env file and delete wallet_data.txt afterwards." ;;
      ret (VString privateKey)
  else
    ret (match privateKey with Some k => VString k | None => VUndefined end).

(** Lines 160 to 168: the wallet provider over a local account. *)
Definition localWalletProvider (privateKey : Value) : M WalletProvider :=
  let* account := call (privateKeyToAccount privateKey) in
  let* client := call (createWalletClient
    {| account := Some account; chain := flowTestnet; transport := http |}) in
  let* walletProvider := call (ViemWalletProvider client) in
  console_log "Using local wallet provider with Flow testnet" ;;
  ret walletProvider.

(** Lines 130 to 169: the wallet provider. *)
Definition selectWalletProvider : M WalletProvider :=
  let* provider := gets isClient in
  match provider with
  | Some ethereum =>
      let* client := call (createWalletClient
        {| account := None; chain := flowTestnet; transport := custom ethereum |}) in
      let* walletProvider := call (ViemWalletProvider client) in
      console_log "Using MetaMask wallet provider with Flow testnet" ;;
      ret walletProvider
  | None =>
      let* privateKey := resolvePrivateKey in
      localWalletProvider privateKey
  end.

(** Lines 172 to 188: the action providers. *)
Definition assembleActionProviders : M (list ActionProvider) :=
  let* wallet := call walletActionProvider in
  let flow := createFlowActionProvider in
  let* erc20 := call erc20ActionProvider in
  let actionProviders := [Builtin wallet; Custom flow; Builtin erc20] in
  let* keyName := process_env "CDP_API_KEY_NAME" in
  let* keyPrivateKey := process_env "CDP_API_KEY_PRIVATE_KEY" in
  let canUseCdpApi := truthy keyName && truthy keyPrivateKey in
  if canUseCdpApi then
    let* cdp := call (cdpApiActionProvider
      {| apiKeyName := keyName; apiKeyPrivateKey := keyPrivateKey |}) in
    ret (actionProviders ++ [Builtin cdp])
  else ret actionProviders.

(** Lines 130 to 195: the body of the [try]. *)
Definition prepareAgentkitAndWalletProvider_try : M (AgentKit * WalletProvider) :=
  let* walletProvider := selectWalletProvider in
  let* actionProviders := assembleActionProviders in
  let* agentkit := call (AgentKit_from walletProvider actionProviders) in
  ret (agentkit, walletProvider).

Definition prepareAgentkitAndWalletProvider : M (AgentKit * WalletProvider) :=
  try_catch prepareAgentkitAndWalletProvider_try
    (fun error =>
       console_error "Error initializing agent:" error ;;
       throw (new_Error "Failed to initialize agent")).

End Sdk.

End Server.

(** ** The client side: [hooks/useAgent.ts] and [page.tsx] *)

Module Chat.

(** *** [messageAgent] *)

(** Modelled from the spec: the type [AgentResponse] of [types/api], which
    is not among the sources.  The response body is [{ response: string }]
    or [{ error: string }]; a field is [None] when it is absent or null. *)
Record AgentResponse : Type := {
  response : option string;
  error : option string;
}.

(** The request that [messageAgent] sends with [fetch]; [userMessage] is
    the one field of the JSON body. *)
Record Request : Type := {
  url : string;
  method : string;
  contentType : string;
  userMessage : string;
}.

(** What the network does with the request: [fetch] rejects, or it
    resolves and [response.json()] rejects or resolves. *)
Inductive FetchOutcome : Type :=
| FetchRejected (e : Js.Error)
| JsonRejected (e : Js.Error)
| JsonResolved (data : AgentResponse).

(** [a ?? b] on [string | undefined | null]. *)
Definition nullish (a b : option string) : option string :=
  match a with
  | Some x => Some x
  | None => b
  end.

(** [messageAgent] up to its first [await]: the call of [fetch]. *)
Definition messageAgent_fetch (userMessage : string) : Request :=
  {| url := "/api/agent"; method := "POST"; contentType := "application/json";
     userMessage := userMessage |}.

(** [messageAgent] after the network call: the value its promise resolves
    to, [None] for [null].  The [catch] logs and returns [null]; the promise
    never rejects. *)
Definition messageAgent (o : FetchOutcome) : option string :=
  match o with
  | JsonResolved data => nullish (response data) (nullish (error data) None)
  | FetchRejected _ => None
  | JsonRejected _ => None
  end.

(** *** [useAgent] *)

Inductive Sender : Type := user | agent.

Record Message : Type := {
  text : string;
  sender : Sender;
}.

(** The two state cells of the hook. *)
Record AgentHook : Type := {
  messages : list Message;
  isThinking : bool;
}.

Definition useAgent : AgentHook := {| messages := []; isThinking := false |}.

(** [setMessages(prev => f(prev))] *)
Definition setMessages (f : list Message -> list Message) (h : AgentHook) : AgentHook :=
  {| messages := f (messages h); isThinking := isThinking h |}.

Definition setIsThinking (b : bool) (h : AgentHook) : AgentHook :=
  {| messages := messages h; isThinking := b |}.

(** [sendMessage] up to its [await]: the new state and the request, when
    one was sent. *)
Definition sendMessage (input : string) (h : AgentHook) : AgentHook * option Request :=
  if negb (truthy (Some (trim input))) then (h, None)
  else
    let h := setMessages (fun prev => prev ++ [{| text := input; sender := user |}]) h in
    let h := setIsThinking true h in
    (h, Some (messageAgent_fetch input)).

(** [sendMessage] from its [await] on, when the network call is over. *)
Definition sendMessage_resume (o : FetchOutcome) (h : AgentHook) : AgentHook :=
  let responseMessage := messageAgent o in
  let h :=
    if truthy responseMessage then
      match responseMessage with
      | Some r => setMessages (fun prev => prev ++ [{| text := r; sender := agent |}]) h
      | None => h
      end
    else h in
  setIsThinking false h.

(** *** The page *)

(** The state of [Home] that the chat uses: its own [input] cell, the
    cells of [useAgent], and the calls of [sendMessage] that wait for the
    network, oldest first. *)
Record Page : Type := {
  input : string;
  chat : AgentHook;
  inFlight : list Request;
}.

Definition Home : Page := {| input := ""; chat := useAgent; inFlight := [] |}.

Definition setInput (v : string) (p : Page) : Page :=
  {| input := v; chat := chat p; inFlight := inFlight p |}.

(** [onSendMessage]: reads [input] and [isThinking] of the last render. *)
Definition onSendMessage (p : Page) : Page :=
  if negb (truthy (Some (trim (input p)))) || isThinking (chat p) then p
  else
    let message := input p in
    let p := setInput "" p in
    let '(h, sent) := sendMessage message (chat p) in
    {| input := input p; chat := h; inFlight := inFlight p ++ option_list sent |}.

(** What happens to the page. *)
Inductive PageEvent : Type :=
| Change (value : string)              (* [onChange] of the text field *)
| Send                                 (* a click on the button, or Enter *)
| Reply (i : nat) (o : FetchOutcome).  (* the [i]-th call in flight ends *)

Definition step (p : Page) (ev : PageEvent) : Page :=
  match ev with
  | Change v => setInput v p
  | Send => onSendMessage p
  | Reply i o =>
      match inFlight p !! i with
      | Some _ =>
          {| input := input p;
             chat := sendMessage_resume o (chat p);
             inFlight := delete i (inFlight p) |}
      | None => p
      end
  end.

Definition run (evs : list PageEvent) (p : Page) : Page := fold_left step evs p.

(** The page is idle, or it shows the flag and one call waits. *)
Definition idle_or_waiting (p : Page) : Prop :=
  (isThinking (chat p) = false ∧ inFlight p = [])
  ∨ (isThinking (chat p) = true ∧ ∃ request, inFlight p = [request]).

End Chat.

Module Wallet.

(** How a promise that the code awaits settles. *)
Inductive Settled (A : Type) : Type :=
| Resolved (a : A)
| Rejected (e : Js.Error).
Arguments Resolved {A} a.
Arguments Rejected {A} e.

(** *** [useMetaMask] *)

(** The four state cells of the hook. *)
Record WalletHook : Type := {
  account : option string;
  isConnected : bool;
  isConnecting : bool;
  error : option string;
}.

Definition useMetaMask : WalletHook :=
  {| account := None; isConnected := false; isConnecting := false; error := None |}.

Definition setAccount (a : option string) (s : WalletHook) : WalletHook :=
  {| account := a; isConnected := isConnected s; isConnecting := isConnecting s; error := error s |}.

Definition setIsConnected (b : bool) (s : WalletHook) : WalletHook :=
  {| account := account s; isConnected := b; isConnecting := isConnecting s; error := error s |}.

Definition setIsConnecting (b : bool) (s : WalletHook) : WalletHook :=
  {| account := account s; isConnected := isConnected s; isConnecting := b; error := error s |}.

Definition setError (e : option string) (s : WalletHook) : WalletHook :=
  {| account := account s; isConnected := isConnected s; isConnecting := isConnecting s; error := e |}.

(** What [window.ethereum.request] resolves to: the account list of
    [eth_accounts] and [eth_requestAccounts] ([None] for null or
    undefined); the code ignores the value of the other two requests. *)
Definition RpcResult : Type := option (list string).

(** [if (accounts && accounts.length > 0) { setAccount(accounts[0]);
    setIsConnected(true); }] *)
Definition adoptAccounts (accounts : RpcResult) (s : WalletHook) : WalletHook :=
  match accounts with
  | Some l =>
      if 0 <? length l then setIsConnected true (setAccount (l !! 0) s) else s
  | None => s
  end.

(** The listener of [accountsChanged]. *)
Definition accountsChanged (accounts : list string) (s : WalletHook) : WalletHook :=
  if length accounts =? 0 then setIsConnected false (setAccount None s)
  else setIsConnected true (setAccount (accounts !! 0) s).

(** [checkConnection] up to its [await]: the new state and whether
    [eth_accounts] was requested. *)
Definition checkConnection (isMetaMaskAvailable : bool) (s : WalletHook) : WalletHook * bool :=
  if negb isMetaMaskAvailable then (setError (Some "MetaMask is not installed") s, false)
  else (s, true).

Definition checkConnection_resume (o : Settled RpcResult) (s : WalletHook) : WalletHook :=
  match o with
  | Resolved accounts => adoptAccounts accounts s
  | Rejected _ => setError (Some "Failed to check MetaMask connection") s
  end.

(** The effect run on mount: the state, whether [eth_accounts] is awaited
    and whether the listener is registered. *)
Definition useEffect_mount (isMetaMaskAvailable : bool) (s : WalletHook) : WalletHook * bool * bool :=
  (checkConnection isMetaMaskAvailable s, isMetaMaskAvailable).

(** The [await] at which a call of [connectMetaMask] is suspended; the
    later two remember [accounts]. *)
Inductive Awaiting : Type :=
| RequestAccounts
| AddChain (accounts : RpcResult)
| SwitchChain (accounts : RpcResult).

(** The method of the request that is awaited. *)
Definition rpc_method (k : Awaiting) : string :=
  match k with
  | RequestAccounts => "eth_requestAccounts"
  | AddChain _ => "wallet_addEthereumChain"
  | SwitchChain _ => "wallet_switchEthereumChain"
  end.

(** [connectMetaMask] up to its first [await]. *)
Definition connectMetaMask (isMetaMaskAvailable : bool) (s : WalletHook)
  : WalletHook * option Awaiting :=
  if negb isMetaMaskAvailable then (setError (Some "MetaMask is not installed") s, None)
  else
    let s := setIsConnecting true s in
    let s := setError None s in
    (s, Some RequestAccounts).

(** [connectMetaMask] from the [await] [k] on, when its request has
    settled as [o]: up to the next [await] or to the end. *)
Definition connectMetaMask_resume (k : Awaiting) (o : Settled RpcResult) (s : WalletHook)
  : WalletHook * option Awaiting :=
  match k with
  | RequestAccounts =>
      match o with
      | Resolved accounts => (s, Some (AddChain accounts))
      | Rejected _ =>
          let s := setError (Some "Failed to connect to MetaMask") s in
          (setIsConnecting false s, None)
      end
  | AddChain accounts =>
      (* a rejection is caught: [console.warn] and nothing else *)
      (s, Some (SwitchChain accounts))
  | SwitchChain accounts =>
      let s :=
        match o with
        | Resolved _ => s
        | Rejected _ => setError (Some "Failed to switch to Flow testnet") s
        end in
      let s := adoptAccounts accounts s in
      (setIsConnecting false s, None)
  end.

(** The [accountsChanged] events delivered during an [await]. *)
Definition deliver (evs : list (list string)) (s : WalletHook) : WalletHook :=
  fold_left (fun s accounts => accountsChanged accounts s) evs s.

(** A call from the [await] [k] on: each request settles after the events
    listed with it were delivered. *)
Fixpoint drive (k : option Awaiting) (settles : list (list (list string) * Settled RpcResult))
  (s : WalletHook) : WalletHook :=
  match k, settles with
  | Some k, (evs, o) :: rest =>
      let '(s, k') := connectMetaMask_resume k o (deliver evs s) in
      drive k' rest s
  | _, _ => s
  end.

(** A whole call of [connectMetaMask]. *)
Definition connectMetaMask_call (isMetaMaskAvailable : bool)
  (settles : list (list (list string) * Settled RpcResult)) (s : WalletHook) : WalletHook :=
  let '(s, k) := connectMetaMask isMetaMaskAvailable s in
  drive k settles s.

End Wallet.

(** ** A reference runtime

    An instance of the runtime on which the server code can be evaluated:
    a JSON codec over the code units below 256, keys checked for their
    shape, and SDK objects that record how they were built. *)

Module Reference.

Import Server.

(** *** JSON text *)

Definition quote : ascii := "034"%char.
Definition backslash : ascii := "092"%char.

Definition hex_digit (n : nat) : ascii :=
  if n <? 10 then ascii_of_nat (48 + n) else ascii_of_nat (87 + n).

(** [QuoteJSONString] on one code unit. *)
Definition escape_char (c : ascii) : string :=
  let n := nat_of_ascii c in
  if n =? 34 then String backslash (String quote "")
  else if n =? 92 then String backslash (String backslash "")
  else if n =? 8 then String backslash "b"
  else if n =? 12 then String backslash "f"
  else if n =? 10 then String backslash "n"
  else if n =? 13 then String backslash "r"
  else if n =? 9 then String backslash "t"
  else if n <? 32 then
    String backslash (String "u" (String "0" (String "0"
      (String (hex_digit (n / 16)) (String (hex_digit (n mod 16)) "")))))
  else String c "".

Fixpoint escape (s : string) : string :=
  match s with
  | EmptyString => EmptyString
  | String c s' => escape_char c +:+ escape s'
  end.

Definition quoted (s : string) : string :=
  String quote (escape s +:+ String quote "").

Fixpoint join (sep : string) (parts : list string) : string :=
  match parts with
  | [] => ""
  | [p] => p
  | p :: rest => p +:+ sep +:+ join sep rest
  end.

(** [JSON.stringify] of a value inside an object or an array: [undefined]
    is dropped from an object and written [null] in an array. *)
Fixpoint stringify_value (v : Value) : string :=
  match v with
  | VUndefined | VNull => "null"
  | VBool true => "true"
  | VBool false => "false"
  | VNumber literal => literal
  | VString s => quoted s
  | VArray items =>
      "[" +:+ join "," ((fix each (l : list Value) : list string :=
                           match l with
                           | [] => []
                           | x :: l' => stringify_value x :: each l'
                           end) items) +:+ "]"
  | VObject fields =>
      "{" +:+ join "," ((fix each (l : list (string * Value)) : list string :=
                           match l with
                           | [] => []
                           | (_, VUndefined) :: l' => each l'
                           | (k, x) :: l' => (quoted k +:+ ":" +:+ stringify_value x) :: each l'
                           end) fields) +:+ "}"
  end.

Definition stringify (fields : list (string * Value)) : string :=
  stringify_value (VObject fields).

Definition is_json_space (c : ascii) : bool :=
  let n := nat_of_ascii c in
  (n =? 32) || (n =? 9) || (n =? 10) || (n =? 13).

Fixpoint skip_ws (s : string) : string :=
  match s with
  | String c s' => if is_json_space c then skip_ws s' else s
  | EmptyString => EmptyString
  end.

Definition hex_value (c : ascii) : option nat :=
  let n := nat_of_ascii c in
  if (48 <=? n) && (n <=? 57) then Some (n - 48)
  else if (97 <=? n) && (n <=? 102) then Some (n - 87)
  else if (65 <=? n) && (n <=? 70) then Some (n - 55)
  else None.

(** The character that follows a backslash, [u] apart. *)
Definition unescape (c : ascii) : option ascii :=
  let n := nat_of_ascii c in
  if n =? 34 then Some quote
  else if n =? 92 then Some backslash
  else if n =? 47 then Some "/"%char
  else if n =? 98 then Some "008"%char
  else if n =? 102 then Some "012"%char
  else if n =? 110 then Some "010"%char
  else if n =? 114 then Some "013"%char
  else if n =? 116 then Some "009"%char
  else None.

Definition cons_char (c : ascii) (r : option (string * string)) : option (string * string) :=
  match r with
  | Some (s, rest) => Some (String c s, rest)
  | None => None
  end.

(** The characters of a string literal after its opening quote: the
    string and what follows the closing quote. *)
Fixpoint parse_chars (s : string) : option (string * string) :=
  match s with
  | EmptyString => None
  | String c s' =>
      if Ascii.eqb c quote then Some (EmptyString, s')
      else if Ascii.eqb c backslash then
        match s' with
        | String e s'' =>
            match unescape e with
            | Some d => cons_char d (parse_chars s'')
            | None =>
                if Ascii.eqb e "u" then
                  match s'' with
                  | String h1 (String h2 (String h3 (String h4 s3))) =>
                      match hex_value h1, hex_value h2, hex_value h3, hex_value h4 with
                      | Some 0, Some 0, Some a, Some b =>
                          cons_char (ascii_of_nat (16 * a + b)) (parse_chars s3)
                      | _, _, _, _ => None
                      end
                  | _ => None
                  end
                else None
            end
        | EmptyString => None
        end
      else if nat_of_ascii c <? 32 then None
      else cons_char c (parse_chars s')
  end.

Definition is_digit (c : ascii) : bool :=
  let n := nat_of_ascii c in (48 <=? n) && (n <=? 57).

Fixpoint span_digits (s : string) : string * string :=
  match s with
  | String c s' =>
      if is_digit c then let '(d, r) := span_digits s' in (String c d, r) else (EmptyString, s)
  | EmptyString => (EmptyString, EmptyString)
  end.

(** A number literal: sign, integer part without a leading zero, fraction
    and exponent. *)
Definition parse_number (s : string) : option (string * string) :=
  let '(sign, s) :=
    match s with
    | String "-" s' => ("-", s')
    | _ => ("", s)
    end in
  let '(int, s) := span_digits s in
  match int with
  | EmptyString => None
  | String "0" (String _ _) => None
  | _ =>
      match
        match s with
        | String "." s' =>
            let '(f, r) := span_digits s' in
            match f with
            | EmptyString => None
            | _ => Some ("." +:+ f, r)
            end
        | _ => Some ("", s)
        end
      with
      | None => None
      | Some (frac, s) =>
          let exponent (mark : string) (s' : string) :=
            let '(esign, s') :=
              match s' with
              | String "+" r => ("+", r)
              | String "-" r => ("-", r)
              | _ => ("", s')
              end in
            let '(e, r) := span_digits s' in
            match e with
            | EmptyString => None
            | _ => Some (sign +:+ int +:+ frac +:+ mark +:+ esign +:+ e, r)
            end in
          match s with
          | String "e" s' => exponent "e" s'
          | String "E" s' => exponent "E" s'
          | _ => Some (sign +:+ int +:+ frac, s)
          end
      end
  end.

(** Expects the word [w] at the head of [s]. *)
Definition literal (w : string) (v : Value) (s : string) : option (Value * string) :=
  if Js.startsWith s w then Some (v, String.substring (String.length w) (String.length s - String.length w) s)
  else None.

(** Defines the property [k]: a later duplicate replaces the value. *)
Fixpoint set_field (k : string) (v : Value) (fields : list (string * Value)) : list (string * Value) :=
  match fields with
  | [] => [(k, v)]
  | (k', v') :: rest =>
      if String.eqb k k' then (k', v) :: rest else (k', v') :: set_field k v rest
  end.

(** A JSON value at the head of [s], then the elements of an array after
    its bracket and the members of an object after its brace; [fuel]
    bounds the number of values and separators. *)
Fixpoint parse_value (fuel : nat) (s : string) : option (Value * string) :=
  match fuel with
  | 0 => None
  | S fuel =>
      match skip_ws s with
      | String "n" _ as r => literal "null" VNull r
      | String "t" _ as r => literal "true" (VBool true) r
      | String "f" _ as r => literal "false" (VBool false) r
      | String "[" r =>
          match skip_ws r with
          | String "]" r' => Some (VArray [], r')
          | _ => parse_elements fuel r []
          end
      | String "{" r =>
          match skip_ws r with
          | String "}" r' => Some (VObject [], r')
          | _ => parse_members fuel r []
          end
      | String c r as whole =>
          if Ascii.eqb c quote then
            match parse_chars r with
            | Some (str, r') => Some (VString str, r')
            | None => None
            end
          else
            match parse_number whole with
            | Some (lit, r') => Some (VNumber lit, r')
            | None => None
            end
      | EmptyString => None
      end
  end

with parse_elements (fuel : nat) (s : string) (acc : list Value) : option (Value * string) :=
  match fuel with
  | 0 => None
  | S fuel =>
      match parse_value fuel s with
      | Some (v, r) =>
          match skip_ws r with
          | String "," r' => parse_elements fuel r' (acc ++ [v])
          | String "]" r' => Some (VArray (acc ++ [v]), r')
          | _ => None
          end
      | None => None
      end
  end

with parse_members (fuel : nat) (s : string) (acc : list (string * Value)) : option (Value * string) :=
  match fuel with
  | 0 => None
  | S fuel =>
      match skip_ws s with
      | String c r =>
          if Ascii.eqb c quote then
            match parse_chars r with
            | Some (k, r) =>
                match skip_ws r with
                | String ":" r =>
                    match parse_value fuel r with
                    | Some (v, r) =>
                        match skip_ws r with
                        | String "," r' => parse_members fuel r' (set_field k v acc)
                        | String "}" r' => Some (VObject (set_field k v acc), r')
                        | _ => None
                        end
                    | None => None
                    end
                | _ => None
                end
            | None => None
            end
          else None
      | EmptyString => None
      end
  end.

(** [JSON.parse]: one value, white space around it and nothing else. *)
Definition parse (text : string) : Result Value :=
  let n := String.length text in
  match parse_value (S (S (n + n))) text with
  | Some (v, rest) =>
      match skip_ws rest with
      | EmptyString => Ok v
      | _ => Throw (SyntaxError "Unexpected non-whitespace character after JSON")
      end
  | None => Throw (SyntaxError "Unexpected token or end of JSON input")
  end.

(** *** Keys and SDK objects *)

Definition is_hex (c : ascii) : bool :=
  match hex_value c with
  | Some _ => true
  | None => false
  end.

Fixpoint all_hex (s : string) : bool :=
  match s with
  | EmptyString => true
  | String c s' => is_hex c && all_hex s'
  end.

(** A private key is [0x] and 64 hex digits. *)
Definition valid_key (k : string) : bool :=
  match k with
  | String "0" (String "x" digits) => (String.length digits =? 64) && all_hex digits
  | _ => false
  end.

(** The [n]-th key of the reference stream: [n] in binary over the digits
    [0] and [1], padded to 64 digits. *)
Fixpoint key_digits (width n : nat) (acc : string) : string :=
  match width with
  | 0 => acc
  | S width => key_digits width (n / 2) (String (if Nat.even n then "0"%char else "1"%char) acc)
  end.

Definition reference_key (n : nat) : string := "0x" +:+ key_digits 64 n "".

#[export] Instance platform : Platform := {|
  Ethereum := unit;
  Account := string;
  WalletClient := option string;
  WalletProvider := option string;
  SdkActionProvider := string;
  AgentKit := option string * list string;
|}.

Definition provider_label (p : ActionProvider) : string :=
  match p with
  | Builtin name => name
  | Custom c => provider_name c
  end.

#[export] Instance runtime : Runtime := {|
  JSON_parse := parse;
  JSON_stringify := stringify;
  generatePrivateKey := reference_key;
  privateKeyToAccount v :=
    match v with
    | VString k => if valid_key k then Ok k else Throw (new_Error "invalid private key")
    | _ => Throw (new_Error "invalid private key")
    end;
  createWalletClient cfg := Ok (account cfg);
  ViemWalletProvider client := Ok client;
  walletActionProvider := Ok "wallet";
  erc20ActionProvider := Ok "erc20";
  cdpApiActionProvider cfg := Ok "cdp_api";
  AgentKit_from walletProvider actionProviders :=
    Ok (walletProvider, map provider_label actionProviders);
|}.

(** The same runtime without a network: [AgentKit.from] throws. *)
Definition offline : Runtime := {|
  JSON_parse := parse;
  JSON_stringify := stringify;
  generatePrivateKey := reference_key;
  privateKeyToAccount := privateKeyToAccount (Runtime := runtime);
  createWalletClient := createWalletClient (Runtime := runtime);
  ViemWalletProvider := ViemWalletProvider (Runtime := runtime);
  walletActionProvider := Ok "wallet";
  erc20ActionProvider := Ok "erc20";
  cdpApiActionProvider cfg := Ok "cdp_api";
  AgentKit_from walletProvider actionProviders := Throw (new_Error "fetch failed");
|}.

(** Worlds to evaluate the server on: a server process with nothing set,
    and one with a key in the environment or a key file. *)
Definition bare : World :=
  {| env := ∅; fs := ∅; window := None; console := []; entropy := 5 |}.

Definition with_env (k : string) (w : World) : World :=
  {| env := <["PRIVATE_KEY" := k]> (env w); fs := fs w; window := window w;
     console := console w; entropy := entropy w |}.

Definition with_file (content : string) (w : World) : World :=
  set_fs (<[WALLET_DATA_FILE := content]> (fs w)) w.

End Reference.

(** ** What the server leaves alone *)

Module Frame.

Import Server.

Section Frame.
Context {P : Platform}.

(** [w'] differs from [w] by console output at most. *)
Definition same_store (w w' : World) : Prop :=
  env w' = env w
  ∧ window w' = window w
  ∧ fs w' = fs w
  ∧ entropy w' = entropy w
  ∧ console w `prefix_of` console w'.

(** A computation that writes no file and draws no key. *)
Definition quiet {A : Type} (c : M A) : Prop :=
  ∀ w, same_store w (fst (c w)).

(** The worlds in which the key resolution has nothing to create: a browser
    wallet, a key in the environment, or a key file. *)
Definition settled (w : World) : Prop :=
  is_Some (isClient w)
  ∨ truthy (env w !! "PRIVATE_KEY") = true
  ∨ is_Some (fs w !! WALLET_DATA_FILE).

End Frame.

End Frame.

(** ** What the page renders: [page.tsx] *)

Module View.

Import Chat Wallet.

(** [s.substring(start)]; [start] is at least 0, which is where JavaScript
    clamps a negative argument. *)
Definition substring_from (start : nat) (s : string) : string :=
  String.substring start (String.length s - start) s.

(** Line 53: [{account?.substring(0, 6)}...{account?.substring(account.length
    - 4)}]; both expressions render nothing for a null account. *)
Definition shortAddress (account : option string) : string :=
  match account with
  | Some a =>
      String.substring 0 6 a +:+ "..." +:+ substring_from (String.length a - 4) a
  | None => "..."
  end.

(** Lines 49 to 66: the status line of the wallet panel. *)
Inductive Status : Type :=
| Connected (address : string)
| NotConnected
| NotDetected.

Definition statusPanel (isMetaMaskAvailable : bool) (s : WalletHook) : Status :=
  if isMetaMaskAvailable then
    if isConnected s then Connected (shortAddress (account s)) else NotConnected
  else NotDetected.

(** Lines 69 to 77: the connect button, when it is rendered: whether it is
    disabled, and its label. *)
Definition connectButton (isMetaMaskAvailable : bool) (s : WalletHook) : option (bool * string) :=
  if isMetaMaskAvailable && negb (isConnected s) then
    Some (isConnecting s, if isConnecting s then "Connecting..." else "Connect MetaMask")
  else None.

(** Lines 80 to 84: the error banner, when it is rendered. *)
Definition errorBanner (s : WalletHook) : option string :=
  if truthy (Wallet.error s) then Wallet.error s else None.

(** Lines 137 to 143: the send button: whether it is disabled, and its
    label. *)
Definition sendButton (p : Page) : bool * string :=
  (isThinking (chat p) || negb (truthy (Some (trim (input p)))),
   if isThinking (chat p) then "Thinking..." else "Send").

(** Line 88: the welcome text is shown in place of the history. *)
Definition welcome (p : Page) : bool := length (messages (chat p)) =? 0.

End View.

(** ** The wallet panel over time *)

Module WalletPage.

Import Wallet View.

(** The hook inside the mounted page: its cells, what
    [isMetaMaskAvailable()] gives (the same at every call), whether the
    listener is registered,
    whether [checkConnection] waits for [eth_accounts], and the calls of
    [connectMetaMask] that wait for a request, oldest first. *)
Record Panel : Type := {
  hook : WalletHook;
  metamask : bool;
  listening : bool;
  probing : bool;
  calls : list Awaiting;
}.

(** The page after its first render and the effect of the mount. *)
Definition mounted (isMetaMaskAvailable : bool) : Panel :=
  let '(s, probing, listening) := useEffect_mount isMetaMaskAvailable useMetaMask in
  {| hook := s; metamask := isMetaMaskAvailable; listening := listening;
     probing := probing; calls := [] |}.

Definition with_hook (s : WalletHook) (p : Panel) : Panel :=
  {| hook := s; metamask := metamask p; listening := listening p;
     probing := probing p; calls := calls p |}.

Inductive Event : Type :=
| AccountsChanged (accounts : list string)  (* MetaMask emits [accountsChanged] *)
| Probed (o : Settled RpcResult)            (* [eth_accounts] of the mount settles *)
| Click                                     (* a click on the connect button *)
| Settle (i : nat) (o : Settled RpcResult). (* the request of the [i]-th call settles *)

Definition step (p : Panel) (ev : Event) : Panel :=
  match ev with
  | AccountsChanged accounts =>
      if listening p then with_hook (accountsChanged accounts (hook p)) p else p
  | Probed o =>
      if probing p then
        {| hook := checkConnection_resume o (hook p); metamask := metamask p;
           listening := listening p; probing := false; calls := calls p |}
      else p
  | Click =>
      match connectButton (metamask p) (hook p) with
      | Some (false, _) =>
          let '(s, k) := connectMetaMask (metamask p) (hook p) in
          {| hook := s; metamask := metamask p; listening := listening p;
             probing := probing p; calls := calls p ++ option_list k |}
      | _ => p
      end
  | Settle i o =>
      match calls p !! i with
      | Some k =>
          let '(s, k') := connectMetaMask_resume k o (hook p) in
          {| hook := s; metamask := metamask p; listening := listening p;
             probing := probing p;
             calls := match k' with
                      | Some k' => <[i := k']> (calls p)
                      | None => delete i (calls p)
                      end |}
      | None => p
      end
  end.

Definition run (evs : list Event) (p : Panel) : Panel := fold_left step evs p.

(** The account is set exactly when the hook says it is connected. *)
Definition coherent (s : WalletHook) : Prop :=
  isConnected s = true ↔ is_Some (account s).

(** No call waits and the flag is down, or one call waits and it is up. *)
Definition idle_or_connecting (p : Panel) : Prop :=
  (isConnecting (hook p) = false ∧ calls p = [])
  ∨ (isConnecting (hook p) = true ∧ ∃ k, calls p = [k]).

End WalletPage.

(** ** The chat history over time *)

Module ChatPage.

Import Chat.

(** Every agent entry comes right after a user entry. *)
Definition replies_follow_questions (l : list Message) : Prop :=
  ∀ i m, l !! i = Some m → sender m = agent →
    ∃ j q, i = S j ∧ l !! j = Some q ∧ sender q = user.

(** The call in flight was sent for the last entry of the history. *)
Definition waiting_on_last (p : Page) : Prop :=
  ∀ request, inFlight p = [request] →
    last (messages (chat p)) = Some {| text := userMessage request; sender := user |}.

End ChatPage.

(** * Properties *)

(** ** The reference codec reads back what it writes *)

Section ReferenceFacts.
Import Server Reference.

Lemma append_cons (x : ascii) (a b : string) : String x a +:+ b = String x (a +:+ b).
Proof. reflexivity. Qed.

Lemma append_assoc (a b c : string) : (a +:+ b) +:+ c = a +:+ (b +:+ c).
Proof.
  induction a as [|x a IH]; [reflexivity|].
  rewrite !append_cons. by rewrite IH.
Qed.

(** One escaped code unit is read back as that code unit: by cases on the
    256 code units. *)
Lemma parse_chars_escape_char (c : ascii) (s : string) :
  parse_chars (escape_char c +:+ s) = cons_char c (parse_chars s).
Proof. destruct c as [[] [] [] [] [] [] [] []]; reflexivity. Qed.

Lemma parse_chars_escape (k rest : string) :
  parse_chars (escape k +:+ String quote rest) = Some (k, rest).
Proof.
  induction k as [|c k IH]; [reflexivity|].
  change (escape (String c k)) with (escape_char c +:+ escape k).
  rewrite append_assoc, parse_chars_escape_char, IH. reflexivity.
Qed.

Lemma parse_value_string (fuel : nat) (k rest : string) :
  parse_value (S fuel) (String quote (escape k +:+ String quote rest))
  = Some (VString k, rest).
Proof.
  change (parse_value (S fuel) (String quote (escape k +:+ String quote rest)))
    with (match parse_chars (escape k +:+ String quote rest) with
          | Some (str, r') => Some (VString str, r')
          | None => None
          end).
  rewrite parse_chars_escape. reflexivity.
Qed.

Lemma parse_members_privateKey (fuel : nat) (k : string) :
  parse_members (S (S fuel))
    (String quote ("privateKey" +:+
       String quote (String ":" (String quote (escape k +:+ String quote "}"))))) []
  = Some (VObject [("privateKey", VString k)], "").
Proof.
  change (parse_members (S (S fuel)) _ [])
    with (match parse_value (S fuel) (String quote (escape k +:+ String quote "}")) with
          | Some (v, r) =>
              match skip_ws r with
              | String "," r' => parse_members (S fuel) r' (set_field "privateKey" v [])
              | String "}" r' => Some (VObject (set_field "privateKey" v []), r')
              | _ => None
              end
          | None => None
          end).
  rewrite parse_value_string. reflexivity.
Qed.

Lemma quoted_append (s rest : string) :
  quoted s +:+ rest = String quote (escape s +:+ String quote rest).
Proof. unfold quoted. rewrite append_cons, append_assoc. reflexivity. Qed.

Lemma stringify_privateKey (k : string) :
  stringify [("privateKey", VString k)]
  = String "{" (String quote ("privateKey" +:+
      String quote (String ":" (String quote (escape k +:+ String quote "}"))))).
Proof.
  change (stringify _) with ("{" +:+ (quoted "privateKey" +:+ ":" +:+ quoted k) +:+ "}").
  rewrite !append_assoc, !quoted_append. reflexivity.
Qed.

Lemma parse_value_object (fuel : nat) (r : string) :
  parse_value (S fuel) (String "{" (String quote r)) = parse_members fuel (String quote r) [].
Proof. reflexivity. Qed.

Lemma parse_stringify (k : string) :
  parse (stringify [("privateKey", VString k)]) = Ok (VObject [("privateKey", VString k)]).
Proof.
  unfold parse. rewrite stringify_privateKey.
  set (r := "privateKey" +:+ _).
  change (String.length (String "{" (String quote r))) with (S (S (String.length r))).
  rewrite parse_value_object.
  change (S (S (String.length r)) + S (S (String.length r)))
    with (S (S (String.length r) + S (S (String.length r)))).
  unfold r. rewrite parse_members_privateKey. reflexivity.
Qed.

#[export] Instance runtime_round_trip : JsonRoundTrip runtime.
Proof. constructor. exact parse_stringify. Qed.

#[export] Instance offline_round_trip : JsonRoundTrip offline.
Proof. constructor. exact parse_stringify. Qed.

End ReferenceFacts.

(** ** The server *)

Section ServerFacts.
Import Server.
Context {P : Platform} {R : Runtime}.

Lemma truthy_Some (k : string) : k ≠ "" → truthy (Some k) = true.
Proof.
  intros Hk. unfold truthy. destruct (String.eqb_spec k ""); [contradiction | reflexivity].
Qed.

Lemma bind_throw {A B : Type} (c : M A) (k : A → M B) (w w1 : World) (e : Js.Error) :
  c w = (w1, Throw e) → bind c k w = (w1, Throw e).
Proof. intros H. unfold bind. rewrite H. reflexivity. Qed.

Lemma bind_ok {A B : Type} (c : M A) (k : A → M B) (w w1 : World) (a : A) :
  c w = (w1, Ok a) → bind c k w = k a w1.
Proof. intros H. unfold bind. rewrite H. reflexivity. Qed.

Lemma try_catch_throw {A : Type} (body : M A) (handler : Js.Error → M A)
    (w w1 : World) (e : Js.Error) :
  body w = (w1, Throw e) → try_catch body handler w = handler e w1.
Proof. intros H. unfold try_catch. rewrite H. reflexivity. Qed.

(** *** Key resolution *)

Lemma resolve_env (w : World) (k : string) :
  env w !! "PRIVATE_KEY" = Some k → k ≠ "" →
  resolvePrivateKey w = (w, Ok (VString k)).
Proof.
  intros Henv Hk.
  cbv beta iota delta [resolvePrivateKey bind process_env gets].
  rewrite Henv, (truthy_Some k Hk). reflexivity.
Qed.

Lemma resolve_file (w : World) (content : string) :
  truthy (env w !! "PRIVATE_KEY") = false →
  fs w !! WALLET_DATA_FILE = Some content →
  resolvePrivateKey w =
    match JSON_parse content with
    | Ok data =>
        match get data "privateKey" with
        | Ok key => (logged LInfo "Found private key in wallet_data.txt" None w, Ok key)
        | Throw e => (w, Throw e)
        end
    | Throw e => (w, Throw e)
    end.
Proof.
  intros Henv Hfile.
  cbv beta iota delta [resolvePrivateKey bind process_env gets fs_existsSync fs_readFileSync call].
  rewrite Henv. cbv beta iota delta [negb].
  rewrite bool_decide_eq_true_2 by (rewrite Hfile; eauto).
  rewrite Hfile.
  destruct (JSON_parse content) as [data|e]; [|reflexivity].
  destruct (get data "privateKey") as [key|e]; reflexivity.
Qed.

Lemma resolve_fresh (w : World) :
  truthy (env w !! "PRIVATE_KEY") = false →
  fs w !! WALLET_DATA_FILE = None →
  let k := generatePrivateKey (entropy w) in
  resolvePrivateKey w =
    (logged LLog "We recommend you save this private key to your .env file and delete wallet_data.txt afterwards." None
       (logged LLog "Created new private key and saved to wallet_data.txt" None
          (set_fs (<[WALLET_DATA_FILE := JSON_stringify [("privateKey", VString k)]]> (fs w))
             (set_entropy (S (entropy w)) w))),
     Ok (VString k)).
Proof.
  intros Henv Hfile k.
  cbv beta iota delta [resolvePrivateKey bind process_env gets fs_existsSync].
  rewrite Henv. cbv beta iota delta [negb].
  rewrite bool_decide_eq_false_2 by (rewrite Hfile; intros [? ?]; discriminate).
  reflexivity.
Qed.

Lemma select_local (w w1 : World) (key : Value) :
  isClient w = None →
  resolvePrivateKey w = (w1, Ok key) →
  selectWalletProvider w = localWalletProvider key w1.
Proof.
  intros Hclient H. unfold selectWalletProvider.
  rewrite (bind_ok _ _ w w None) by (unfold gets; by rewrite Hclient).
  by apply bind_ok.
Qed.

(** C1: the private key of the local wallet is the one of the environment
    when [PRIVATE_KEY] holds one, also when the key file exists; else the
    one read from the key file when the file exists; else a fresh one that
    is written to the key file, and a second resolution then reads the same
    key back.  The resolved key is the one the local account is made of. *)
Theorem key_resolution_precedence `{!JsonRoundTrip R} (w : World) :
  (∀ k, env w !! "PRIVATE_KEY" = Some k → k ≠ "" →
        resolvePrivateKey w = (w, Ok (VString k)))
  ∧ (truthy (env w !! "PRIVATE_KEY") = false →
     ∀ content data key,
       fs w !! WALLET_DATA_FILE = Some content →
       JSON_parse content = Ok data →
       get data "privateKey" = Ok key →
       resolvePrivateKey w
       = (logged LInfo "Found private key in wallet_data.txt" None w, Ok key))
  ∧ (truthy (env w !! "PRIVATE_KEY") = false →
     fs w !! WALLET_DATA_FILE = None →
     let k := generatePrivateKey (entropy w) in
     ∃ w1, resolvePrivateKey w = (w1, Ok (VString k))
       ∧ fs w1 = <[WALLET_DATA_FILE := JSON_stringify [("privateKey", VString k)]]> (fs w)
       ∧ ∃ w2, resolvePrivateKey w1 = (w2, Ok (VString k))
           ∧ fs w2 = fs w1 ∧ entropy w2 = entropy w1)
  ∧ (isClient w = None →
     ∀ w1 key, resolvePrivateKey w = (w1, Ok key) →
       selectWalletProvider w = localWalletProvider key w1).
Proof.
  split; [|split; [|split]].
  - intros k. apply resolve_env.
  - intros Henv content data key Hfile Hparse Hget.
    rewrite (resolve_file w content Henv Hfile), Hparse, Hget. reflexivity.
  - intros Henv Hfile k.
    eexists. split; [apply (resolve_fresh w Henv Hfile)|].
    split; [reflexivity|].
    eexists. split.
    + rewrite (resolve_file _ (JSON_stringify [("privateKey", VString k)])).
      * rewrite parse_stringify_privateKey. reflexivity.
      * exact Henv.
      * cbn. apply lookup_insert_eq.
    + split; reflexivity.
  - intros Hclient w1 key. by apply select_local.
Qed.

(** *** The placeholder balance *)

(** C2: for every address string, [execute] of [getFlowBalance] returns the
    balance [10.0] and does not throw; it leaves the world, console
    included, as it was. *)
Theorem getFlowBalance_returns_placeholder (args : Value) (address : string) (w : World) :
  get args "address" = Ok (VString address) →
  ∃ act, actions createFlowActionProvider = [("getFlowBalance", act)]
       ∧ execute act args w = (w, Ok {| balance := "10.0" |}).
Proof.
  intros Hget. eexists. split; [reflexivity|].
  cbn [execute]. unfold getFlowBalance_execute.
  rewrite (bind_ok _ _ w w (VString address)) by (unfold call; by rewrite Hget).
  reflexivity.
Qed.

(** *** Failures of the initialization *)

Lemma prepare_catches (w w1 : World) (e : Js.Error) :
  prepareAgentkitAndWalletProvider_try w = (w1, Throw e) →
  prepareAgentkitAndWalletProvider w
  = (logged LError "Error initializing agent:" (Some e) w1,
     Throw (new_Error "Failed to initialize agent")).
Proof.
  intros H. unfold prepareAgentkitAndWalletProvider.
  rewrite (try_catch_throw _ _ _ _ _ H). reflexivity.
Qed.

Lemma select_throws (w w1 : World) (e : Js.Error) :
  selectWalletProvider w = (w1, Throw e) →
  prepareAgentkitAndWalletProvider_try w = (w1, Throw e).
Proof. apply bind_throw. Qed.

Lemma resolve_throws (w w1 : World) (e : Js.Error) :
  isClient w = None →
  resolvePrivateKey w = (w1, Throw e) →
  selectWalletProvider w = (w1, Throw e).
Proof.
  intros Hclient H. unfold selectWalletProvider.
  rewrite (bind_ok _ _ w w None) by (unfold gets; by rewrite Hclient).
  by apply bind_throw.
Qed.

Lemma agentkit_throws (w w1 w2 : World) (walletProvider : WalletProvider)
    (actionProviders : list ActionProvider) (e : Js.Error) :
  selectWalletProvider w = (w1, Ok walletProvider) →
  assembleActionProviders w1 = (w2, Ok actionProviders) →
  AgentKit_from walletProvider actionProviders = Throw e →
  prepareAgentkitAndWalletProvider_try w = (w2, Throw e).
Proof.
  intros Hselect Hassemble Hfrom. unfold prepareAgentkitAndWalletProvider_try.
  rewrite (bind_ok _ _ _ _ _ Hselect), (bind_ok _ _ _ _ _ Hassemble).
  apply bind_throw. unfold call. by rewrite Hfrom.
Qed.

(** C3: when a step of the [try] throws [e] (whichever step: the
    construction of the wallet provider, the key resolution in it, or
    [AgentKit.from]), the function logs [e] and throws the error
    [Failed to initialize agent], which is the same for every [e] and
    carries no cause. *)
Theorem initialization_failure_is_generic (w : World) :
  let failure := new_Error "Failed to initialize agent" in
  (∀ w1 e, prepareAgentkitAndWalletProvider_try w = (w1, Throw e) →
     prepareAgentkitAndWalletProvider w
     = (logged LError "Error initializing agent:" (Some e) w1, Throw failure))
  ∧ (∀ w1 e, selectWalletProvider w = (w1, Throw e) →
     snd (prepareAgentkitAndWalletProvider w) = Throw failure)
  ∧ (∀ w1 e, isClient w = None → resolvePrivateKey w = (w1, Throw e) →
     snd (prepareAgentkitAndWalletProvider w) = Throw failure)
  ∧ (∀ w1 w2 walletProvider actionProviders e,
     selectWalletProvider w = (w1, Ok walletProvider) →
     assembleActionProviders w1 = (w2, Ok actionProviders) →
     AgentKit_from walletProvider actionProviders = Throw e →
     snd (prepareAgentkitAndWalletProvider w) = Throw failure)
  ∧ Js.message failure = "Failed to initialize agent"
  ∧ Js.cause failure = None.
Proof.
  intros failure. repeat split.
  - intros w1 e. apply prepare_catches.
  - intros w1 e H. by rewrite (prepare_catches w w1 e (select_throws _ _ _ H)).
  - intros w1 e Hc H.
    by rewrite (prepare_catches w w1 e (select_throws _ _ _ (resolve_throws _ _ _ Hc H))).
  - intros w1 w2 wp aps e H1 H2 H3.
    by rewrite (prepare_catches w w2 e (agentkit_throws _ _ _ _ _ _ H1 H2 H3)).
Qed.

(** C7, as the code has it: when no key is in the environment and the key
    file exists with a text that [JSON.parse] rejects with [e], the function
    catches [e], logs it and throws [Failed to initialize agent] in its
    place. *)
Theorem malformed_key_file_fails_generically (w : World) (content : string) (e : Js.Error) :
  isClient w = None →
  truthy (env w !! "PRIVATE_KEY") = false →
  fs w !! WALLET_DATA_FILE = Some content →
  JSON_parse content = Throw e →
  prepareAgentkitAndWalletProvider w
  = (logged LError "Error initializing agent:" (Some e) w,
     Throw (new_Error "Failed to initialize agent")).
Proof.
  intros Hclient Henv Hfile Hparse.
  apply prepare_catches, select_throws, resolve_throws; [done|].
  by rewrite (resolve_file w content Henv Hfile), Hparse.
Qed.

End ServerFacts.

(** *** On the reference runtime *)

Section ServerExamples.
Import Server Reference.

Lemma key_resolution_precedence_witness :
  let other := stringify [("privateKey", VString (reference_key 9))] in
  let key := "0xac0974bec39a17e36ba4a6b4d238ff944bacb478cbed5efcae784d7bf4f2ff80" in
  resolvePrivateKey (with_env key (with_file other bare))
  = (with_env key (with_file other bare), Ok (VString key))
  ∧ resolvePrivateKey (with_file other bare)
    = (logged LInfo "Found private key in wallet_data.txt" None (with_file other bare),
       Ok (VString (reference_key 9)))
  ∧ ∃ w1, resolvePrivateKey bare = (w1, Ok (VString (reference_key 5)))
     ∧ fs w1 = <[WALLET_DATA_FILE := stringify [("privateKey", VString (reference_key 5))]]> (fs bare)
     ∧ ∃ w2, resolvePrivateKey w1 = (w2, Ok (VString (reference_key 5)))
         ∧ fs w2 = fs w1 ∧ entropy w2 = entropy w1.
Proof.
  intros other key. split; [|split].
  - apply (key_resolution_precedence (with_env key (with_file other bare))).
    + reflexivity.
    + discriminate.
  - apply (proj1 (proj2 (key_resolution_precedence (with_file other bare)))) with (content := other)
      (data := VObject [("privateKey", VString (reference_key 9))]);
      reflexivity.
  - exact (proj1 (proj2 (proj2 (key_resolution_precedence bare))) eq_refl eq_refl).
Defined.

Lemma getFlowBalance_returns_placeholder_witness :
  ∃ act, actions createFlowActionProvider = [("getFlowBalance", act)]
       ∧ execute act (VObject [("address", VString "f8d6e0586b0a20c7")]) bare
         = (bare, Ok {| balance := "10.0" |}).
Proof.
  apply (getFlowBalance_returns_placeholder _ "f8d6e0586b0a20c7"). reflexivity.
Defined.

Lemma initialization_failure_is_generic_witness :
  let failure := new_Error "Failed to initialize agent" in
  let invalid := new_Error "invalid private key" in
  snd (prepareAgentkitAndWalletProvider (with_env "hunter2" bare)) = Throw failure
  ∧ prepareAgentkitAndWalletProvider (with_env "hunter2" bare)
    = (logged LError "Error initializing agent:" (Some invalid) (with_env "hunter2" bare),
       Throw failure)
  ∧ snd (prepareAgentkitAndWalletProvider (with_file "null" bare)) = Throw failure
  ∧ snd (prepareAgentkitAndWalletProvider (R := offline) bare) = Throw failure.
Proof.
  intros failure invalid. split; [|split; [|split]].
  - apply (proj1 (proj2 (initialization_failure_is_generic (with_env "hunter2" bare))))
      with (w1 := with_env "hunter2" bare) (e := invalid).
    reflexivity.
  - apply (proj1 (initialization_failure_is_generic (with_env "hunter2" bare))).
    reflexivity.
  - apply (proj1 (proj2 (proj2 (initialization_failure_is_generic (with_file "null" bare)))))
      with (w1 := with_file "null" bare)
           (e := TypeError "Cannot read properties of undefined or null, reading privateKey");
      reflexivity.
  - eapply (proj1 (proj2 (proj2 (proj2
      (initialization_failure_is_generic (R := offline) bare)))));
      [vm_compute; reflexivity ..].
Defined.

Lemma malformed_key_file_fails_generically_witness :
  let e := SyntaxError "Unexpected token or end of JSON input" in
  prepareAgentkitAndWalletProvider (with_file "{privateKey:0xab}" bare)
  = (logged LError "Error initializing agent:" (Some e) (with_file "{privateKey:0xab}" bare),
     Throw (new_Error "Failed to initialize agent")).
Proof.
  intros e.
  apply (malformed_key_file_fails_generically _ "{privateKey:0xab}" e); reflexivity.
Defined.

(** C7, as it is worded, fails: the key file holds a text that is not
    JSON, [JSON.parse] throws a [SyntaxError], and what the function throws
    is not that error. *)
Lemma malformed_key_file_counterexample :
  let w := with_file "{privateKey:0xab}" bare in
  ∃ e, JSON_parse "{privateKey:0xab}" = Throw e
     ∧ Js.name e = "SyntaxError"
     ∧ fs w !! WALLET_DATA_FILE = Some "{privateKey:0xab}"
     ∧ snd (prepareAgentkitAndWalletProvider w) = Throw (new_Error "Failed to initialize agent")
     ∧ snd (prepareAgentkitAndWalletProvider w) ≠ Throw e.
Proof.
  eexists. repeat split. discriminate.
Qed.

End ServerExamples.

(** ** The chat hook and the page *)

Section ChatFacts.
Import Chat.

Lemma truthy_trim (input : string) :
  trim input ≠ "" → truthy (Some (trim input)) = true.
Proof.
  intros H. unfold truthy.
  destruct (String.eqb_spec (trim input) ""); [contradiction | reflexivity].
Qed.

Lemma sendMessage_sends (input : string) (h : AgentHook) :
  trim input ≠ "" →
  sendMessage input h
  = ({| messages := messages h ++ [{| text := input; sender := user |}]; isThinking := true |},
     Some (messageAgent_fetch input)).
Proof. intros H. unfold sendMessage. rewrite (truthy_trim input H). reflexivity. Qed.

Lemma sendMessage_blank (input : string) (h : AgentHook) :
  trim input = "" → sendMessage input h = (h, None).
Proof. intros H. unfold sendMessage. rewrite H. reflexivity. Qed.

Lemma resume_appends (o : FetchOutcome) (h : AgentHook) (r : string) :
  messageAgent o = Some r → r ≠ "" →
  sendMessage_resume o h
  = {| messages := messages h ++ [{| text := r; sender := agent |}]; isThinking := false |}.
Proof.
  intros Ho Hr. unfold sendMessage_resume. rewrite Ho. unfold truthy.
  destruct (String.eqb_spec r ""); [contradiction | reflexivity].
Qed.

Lemma resume_drops (o : FetchOutcome) (h : AgentHook) :
  messageAgent o = None ∨ messageAgent o = Some "" →
  sendMessage_resume o h = {| messages := messages h; isThinking := false |}.
Proof.
  intros [Ho|Ho]; unfold sendMessage_resume; rewrite Ho; reflexivity.
Qed.

Lemma onSendMessage_ignored (p : Page) :
  trim (input p) = "" ∨ isThinking (chat p) = true → onSendMessage p = p.
Proof.
  intros [H|H]; unfold onSendMessage; rewrite H; [reflexivity|].
  by rewrite orb_true_r.
Qed.

Lemma resume_extends (o : FetchOutcome) (h : AgentHook) :
  messages h `prefix_of` messages (sendMessage_resume o h).
Proof.
  unfold sendMessage_resume.
  destruct (messageAgent o) as [r|]; [|by exists []; rewrite app_nil_r].
  destruct (truthy (Some r)); [by eexists | by exists []; rewrite app_nil_r].
Qed.

Lemma step_extends (p : Page) (ev : PageEvent) :
  messages (chat p) `prefix_of` messages (chat (step p ev)).
Proof.
  destruct ev as [v| |i o]; cbn [step].
  - reflexivity.
  - unfold onSendMessage.
    destruct (negb (truthy (Some (trim (input p)))) || isThinking (chat p)) eqn:Hguard;
      [reflexivity|].
    apply orb_false_elim in Hguard as [Hblank _].
    cbn [setInput chat input]. unfold sendMessage. rewrite Hblank. by eexists.
  - destruct (inFlight p !! i); [apply resume_extends | reflexivity].
Qed.

Lemma run_extends (evs : list PageEvent) (p : Page) :
  messages (chat p) `prefix_of` messages (chat (run evs p)).
Proof.
  revert p. induction evs as [|ev evs IH]; intros p; [reflexivity|].
  etrans; [apply (step_extends p ev) | apply IH].
Qed.

(** C4, as the code has it: for a non-blank input, the segment of
    [sendMessage] before its [await] appends one user entry after the
    entries that were there and sends the request; the segment after the
    network call appends one agent entry when [messageAgent] gave a string
    that is not empty, and leaves the history as it was when it gave
    [null] (a rejected [fetch], a body that is not JSON, a body with
    neither field) or the empty string.  Whatever happens to the page, the
    history it had stays as the first entries of the history it has. *)
Theorem sendMessage_appends (input : string) (h : AgentHook) :
  trim input ≠ "" →
  (∃ request,
     sendMessage input h
     = ({| messages := messages h ++ [{| text := input; sender := user |}];
           isThinking := true |}, Some request))
  ∧ (∀ o h' r, messageAgent o = Some r → r ≠ "" →
       messages (sendMessage_resume o h')
       = messages h' ++ [{| text := r; sender := agent |}])
  ∧ (∀ o h', messageAgent o = None ∨ messageAgent o = Some "" →
       messages (sendMessage_resume o h') = messages h')
  ∧ (∀ e, messageAgent (FetchRejected e) = None ∧ messageAgent (JsonRejected e) = None)
  ∧ messageAgent (JsonResolved {| response := None; error := None |}) = None
  ∧ (∀ evs p, messages (chat p) `prefix_of` messages (chat (run evs p))).
Proof.
  intros H. split; [|split; [|split; [|split; [|split]]]].
  - eexists. apply (sendMessage_sends input h H).
  - intros o h' r Ho Hr. by rewrite (resume_appends o h' r Ho Hr).
  - intros o h' Ho. by rewrite (resume_drops o h' Ho).
  - intros e. split; reflexivity.
  - reflexivity.
  - intros evs p. apply run_extends.
Qed.

Lemma sendMessage_appends_witness :
  let question := {| text := "What is my wallet address?"; sender := user |} in
  (∃ request,
     sendMessage "What is my wallet address?" useAgent
     = ({| messages := [question]; isThinking := true |}, Some request))
  ∧ messages (sendMessage_resume
                (JsonResolved {| response := Some "0x1234"; error := None |})
                {| messages := [question]; isThinking := true |})
    = [question; {| text := "0x1234"; sender := agent |}]
  ∧ messages (sendMessage_resume (FetchRejected (TypeError "Failed to fetch"))
                {| messages := [question]; isThinking := true |})
    = [question].
Proof.
  intros question.
  destruct (sendMessage_appends "What is my wallet address?" useAgent) as (H1 & H2 & H3 & _).
  { discriminate. }
  split; [exact H1|]. split.
  - apply (H2 _ {| messages := [question]; isThinking := true |} "0x1234");
      [reflexivity | discriminate].
  - apply (H3 _ {| messages := [question]; isThinking := true |}). left. reflexivity.
Defined.

(** C4, as it is worded, fails: the server answers [{ response: "" }],
    [messageAgent] gives the empty string, which is not [null], and no
    agent entry is appended. *)
Lemma empty_response_not_appended :
  let o := JsonResolved {| response := Some ""; error := None |} in
  let h := fst (sendMessage "hi" useAgent) in
  messageAgent o = Some ""
  ∧ messageAgent o ≠ None
  ∧ messages (sendMessage_resume o h) = messages h.
Proof. repeat split. discriminate. Qed.

(** C10, as the code has it: when the body has no response and an error
    string that is not empty, that string is appended as an agent entry,
    exactly as if it had been the response. *)
Theorem error_payload_shown_as_reply (e : string) (h : AgentHook) :
  e ≠ "" →
  sendMessage_resume (JsonResolved {| response := None; error := Some e |}) h
  = {| messages := messages h ++ [{| text := e; sender := agent |}]; isThinking := false |}
  ∧ sendMessage_resume (JsonResolved {| response := None; error := Some e |}) h
    = sendMessage_resume (JsonResolved {| response := Some e; error := None |}) h.
Proof.
  intros He. split.
  - by apply resume_appends.
  - reflexivity.
Qed.

Lemma error_payload_shown_as_reply_witness :
  sendMessage_resume
    (JsonResolved {| response := None; error := Some "Failed to process message" |})
    (fst (sendMessage "hi" useAgent))
  = {| messages := [{| text := "hi"; sender := user |};
                    {| text := "Failed to process message"; sender := agent |}];
       isThinking := false |}.
Proof.
  apply (error_payload_shown_as_reply "Failed to process message"
           (fst (sendMessage "hi" useAgent))).
  discriminate.
Defined.

(** C10, as it is worded, fails: the body is [{ error: "" }], it has no
    response and it has an error string, and nothing is appended. *)
Lemma empty_error_not_appended :
  let o := JsonResolved {| response := None; error := Some "" |} in
  let h := fst (sendMessage "hi" useAgent) in
  messages (sendMessage_resume o h) = messages h
  ∧ messages (sendMessage_resume o h) ≠ messages h ++ [{| text := ""; sender := agent |}].
Proof. split; [reflexivity | discriminate]. Qed.

(** C6, as the code has it: [sendMessage] ignores a blank input (the state
    is unchanged and no request is sent); it does not look at the flag.
    The page's [onSendMessage] ignores a send when the input is blank and
    when [isThinking] is true: the page is unchanged and [sendMessage] is
    not called. *)
Theorem blank_or_busy_send_is_ignored :
  (∀ input h, trim input = "" → sendMessage input h = (h, None))
  ∧ (∀ p, trim (input p) = "" ∨ isThinking (chat p) = true →
       onSendMessage p = p).
Proof.
  split.
  - apply sendMessage_blank.
  - apply onSendMessage_ignored.
Qed.

Lemma blank_or_busy_send_is_ignored_witness :
  let busy := run [Change "first"; Send; Change "second"] Home in
  sendMessage "   " useAgent = (useAgent, None)
  ∧ isThinking (chat busy) = true
  ∧ onSendMessage busy = busy.
Proof.
  intros busy. destruct blank_or_busy_send_is_ignored as [H1 H2].
  split; [apply H1; reflexivity|].
  split; [reflexivity|].
  apply H2. right. reflexivity.
Defined.

(** C6, as it is worded, fails: a call of [sendMessage] while the flag is
    true is not ignored; it appends its entry and sends its request. *)
Lemma sendMessage_while_thinking :
  let h := fst (sendMessage "first" useAgent) in
  isThinking h = true
  ∧ sendMessage "second" h
    = ({| messages := [{| text := "first"; sender := user |};
                       {| text := "second"; sender := user |}];
          isThinking := true |},
       Some (messageAgent_fetch "second"))
  ∧ sendMessage "second" h ≠ (h, None).
Proof. repeat split. discriminate. Qed.

(** *** The flag over the life of the page *)

Lemma resume_clears (o : FetchOutcome) (h : AgentHook) :
  isThinking (sendMessage_resume o h) = false.
Proof. reflexivity. Qed.

Lemma step_idle_or_waiting (p : Page) (ev : PageEvent) :
  idle_or_waiting p → idle_or_waiting (step p ev).
Proof.
  intros Hp. destruct ev as [v| |i o]; cbn [step].
  - exact Hp.
  - unfold onSendMessage.
    destruct (negb (truthy (Some (trim (input p)))) || isThinking (chat p)) eqn:Hguard;
      [exact Hp|].
    apply orb_false_elim in Hguard as [Hblank Hthinking].
    destruct Hp as [[_ Hq]|[Ht _]]; [|congruence].
    cbn [setInput chat input inFlight]. unfold sendMessage. rewrite Hblank.
    right. cbn. rewrite Hq. eauto.
  - destruct (inFlight p !! i) as [request|] eqn:Hi; [|exact Hp].
    left. cbn [chat inFlight]. split; [apply resume_clears|].
    destruct Hp as [[_ Hq]|[_ [r Hq]]]; rewrite Hq in Hi |- *.
    + discriminate.
    + destruct i as [|i]; [reflexivity | discriminate].
Qed.

Lemma run_idle_or_waiting (evs : list PageEvent) (p : Page) :
  idle_or_waiting p → idle_or_waiting (run evs p).
Proof.
  revert p. induction evs as [|ev evs IH]; intros p Hp; [exact Hp|].
  apply IH, step_idle_or_waiting, Hp.
Qed.

(** C5: a non-blank input makes [sendMessage] set the flag in the segment
    that sends the request, and the segment after the network call clears
    it whatever the outcome.  In every state the page reaches, the flag is
    true exactly while one call of [sendMessage] waits for the network: it
    is false when a send is accepted, true after it, kept by every event
    until the reply, and false after the reply, whether the call succeeded
    or failed. *)
Theorem thinking_while_in_flight (evs : list PageEvent) :
  let p := run evs Home in
  (∀ input h, trim input ≠ "" → isThinking (fst (sendMessage input h)) = true)
  ∧ (∀ o h, isThinking (sendMessage_resume o h) = false)
  ∧ (isThinking (chat p) = true ↔ ∃ request, inFlight p = [request])
  ∧ (isThinking (chat p) = false ↔ inFlight p = [])
  ∧ (trim (input p) ≠ "" → isThinking (chat p) = false →
       isThinking (chat (step p Send)) = true
       ∧ inFlight (step p Send) = [messageAgent_fetch (input p)])
  ∧ (∀ v, isThinking (chat (step p (Change v))) = isThinking (chat p)
          ∧ inFlight (step p (Change v)) = inFlight p)
  ∧ (isThinking (chat p) = true → step p Send = p)
  ∧ (∀ o, isThinking (chat p) = true →
       isThinking (chat (step p (Reply 0 o))) = false
       ∧ inFlight (step p (Reply 0 o)) = []).
Proof.
  intros p.
  assert (Hp : idle_or_waiting p).
  { apply run_idle_or_waiting. left. split; reflexivity. }
  split; [|split; [|split; [|split; [|split; [|split; [|split]]]]]].
  - intros input h H. by rewrite (sendMessage_sends input h H).
  - apply resume_clears.
  - destruct Hp as [[Ht Hq]|[Ht Hq]]; rewrite Ht; split; try done.
    intros [r Hr]. congruence.
  - destruct Hp as [[Ht Hq]|[Ht [r Hq]]]; rewrite Ht, Hq; split; done.
  - intros Hinput Ht. cbn [step]. unfold onSendMessage.
    rewrite (truthy_trim _ Hinput), Ht. cbn [negb orb setInput chat input inFlight].
    rewrite (sendMessage_sends _ _ Hinput).
    destruct Hp as [[_ Hq]|[Ht' _]]; [|congruence].
    rewrite Hq. split; reflexivity.
  - intros v. split; reflexivity.
  - intros Ht. apply onSendMessage_ignored. by right.
  - intros o Ht. destruct Hp as [[Ht' _]|[_ [r Hq]]]; [congruence|].
    cbn [step]. rewrite Hq. split; reflexivity.
Qed.

Lemma thinking_while_in_flight_witness :
  let typed := run [Change "hello"] Home in
  let sent := run [Change "hello"; Send] Home in
  isThinking (chat typed) = false
  ∧ isThinking (chat (step typed Send)) = true
  ∧ inFlight (step typed Send) = [messageAgent_fetch "hello"]
  ∧ isThinking (chat (step sent (Reply 0 (FetchRejected (TypeError "Failed to fetch"))))) = false
  ∧ isThinking (chat (step sent (Reply 0 (JsonResolved {| response := Some "hi"; error := None |})))) = false.
Proof.
  intros typed sent.
  destruct (thinking_while_in_flight [Change "hello"]) as (_ & _ & _ & _ & Hsend & _).
  destruct (thinking_while_in_flight [Change "hello"; Send]) as (_ & _ & _ & _ & _ & _ & _ & Hreply).
  split; [reflexivity|].
  split; [apply Hsend; [discriminate | reflexivity]|].
  split; [apply Hsend; [discriminate | reflexivity]|].
  split; apply Hreply; reflexivity.
Defined.

End ChatFacts.

(** ** The wallet hook *)

Section WalletFacts.
Import Wallet.

(** C8: the listener of [accountsChanged] sets the account to null and
    [isConnected] to false on an empty list, and sets the first account and
    [isConnected] to true on any other list, whatever the state was; the
    two other cells are kept. *)
Theorem accountsChanged_sets_connection (s : WalletHook) :
  accountsChanged [] s
  = {| account := None; isConnected := false;
       isConnecting := isConnecting s; error := error s |}
  ∧ ∀ a rest, accountsChanged (a :: rest) s
      = {| account := Some a; isConnected := true;
           isConnecting := isConnecting s; error := error s |}.
Proof. split; [reflexivity | intros a rest; reflexivity]. Qed.

Lemma accountsChanged_keeps (accounts : list string) (s : WalletHook) :
  error (accountsChanged accounts s) = error s
  ∧ isConnecting (accountsChanged accounts s) = isConnecting s.
Proof. destruct accounts; split; reflexivity. Qed.

Lemma deliver_keeps (evs : list (list string)) (s : WalletHook) :
  error (deliver evs s) = error s ∧ isConnecting (deliver evs s) = isConnecting s.
Proof.
  revert s. induction evs as [|accounts evs IH]; intros s; [split; reflexivity|].
  cbn [deliver fold_left]. destruct (IH (accountsChanged accounts s)) as [He Hc].
  unfold deliver in He, Hc. rewrite He, Hc. apply accountsChanged_keeps.
Qed.

Lemma adoptAccounts_cons (a : string) (rest : list string) (s : WalletHook) :
  adoptAccounts (Some (a :: rest)) s
  = {| account := Some a; isConnected := true;
       isConnecting := isConnecting s; error := error s |}.
Proof. reflexivity. Qed.

(** C9: a call of [connectMetaMask] in which the authorization gives a
    non-empty account list ends, when the switch request is rejected, with
    the first account set, [isConnected] true and the error
    [Failed to switch to Flow testnet], whether the add request succeeded
    or not; when only the add request is rejected it ends connected with no
    error.  This holds for every state the call starts in and for all
    [accountsChanged] events delivered while the call awaits. *)
Theorem switch_failure_still_connects (s : WalletHook) (a : string) (rest : list string)
    (evs1 evs2 evs3 : list (list string)) :
  (∀ add e,
     connectMetaMask_call true
       [(evs1, Resolved (Some (a :: rest))); (evs2, add); (evs3, Rejected e)] s
     = {| account := Some a; isConnected := true; isConnecting := false;
          error := Some "Failed to switch to Flow testnet" |})
  ∧ (∀ e switched,
     connectMetaMask_call true
       [(evs1, Resolved (Some (a :: rest))); (evs2, Rejected e); (evs3, Resolved switched)] s
     = {| account := Some a; isConnected := true; isConnecting := false;
          error := None |}).
Proof.
  split.
  - intros add e. unfold connectMetaMask_call.
    cbn [connectMetaMask negb drive connectMetaMask_resume].
    rewrite adoptAccounts_cons. cbn [setIsConnecting account isConnected error]. reflexivity.
  - intros e switched. unfold connectMetaMask_call.
    cbn [connectMetaMask negb drive connectMetaMask_resume].
    rewrite adoptAccounts_cons. cbn [setIsConnecting account isConnected error].
    f_equal.
    rewrite !(proj1 (deliver_keeps _ _)). reflexivity.
Qed.

End WalletFacts.

(** ** What the initialization leaves alone *)

Section FrameFacts.
Import Server Frame.
Context {P : Platform} {R : Runtime}.

Lemma same_store_refl (w : World) : same_store w w.
Proof. by repeat split. Qed.

Lemma same_store_trans (w1 w2 w3 : World) :
  same_store w1 w2 → same_store w2 w3 → same_store w1 w3.
Proof.
  intros (He & Hw & Hf & Hn & Hc) (He' & Hw' & Hf' & Hn' & Hc').
  repeat split; try congruence. by etrans.
Qed.

Lemma same_store_logged (l : Level) (t : string) (d : option Js.Error) (w : World) :
  same_store w (logged l t d w).
Proof. repeat split. by eexists. Qed.

Lemma quiet_ret {A : Type} (a : A) : quiet (ret a).
Proof. intros w. apply same_store_refl. Qed.

Lemma quiet_throw {A : Type} (e : Js.Error) : quiet (throw (A := A) e).
Proof. intros w. apply same_store_refl. Qed.

Lemma quiet_call {A : Type} (r : Result A) : quiet (call r).
Proof. intros w. apply same_store_refl. Qed.

Lemma quiet_gets {A : Type} (f : World → A) : quiet (gets f).
Proof. intros w. apply same_store_refl. Qed.

Lemma quiet_console_write (l : Level) (t : string) (d : option Js.Error) :
  quiet (console_write l t d).
Proof. intros w. apply same_store_logged. Qed.

(** What runs after [c] and is quiet keeps the store that [c] left. *)
Lemma after_bind {A B : Type} (c : M A) (k : A → M B) (w : World) :
  (∀ a, quiet (k a)) → same_store (fst (c w)) (fst (bind c k w)).
Proof.
  intros Hk. unfold bind. destruct (c w) as [w1 [a|e]]; cbn [fst].
  - apply Hk.
  - apply same_store_refl.
Qed.

Lemma quiet_bind {A B : Type} (c : M A) (k : A → M B) :
  quiet c → (∀ a, quiet (k a)) → quiet (bind c k).
Proof.
  intros Hc Hk w. eapply same_store_trans; [apply Hc | by apply after_bind].
Qed.

Lemma after_try_catch {A : Type} (body : M A) (handler : Js.Error → M A) (w : World) :
  (∀ e, quiet (handler e)) → same_store (fst (body w)) (fst (try_catch body handler w)).
Proof.
  intros Hh. unfold try_catch. destruct (body w) as [w1 [a|e]]; cbn [fst].
  - apply same_store_refl.
  - apply Hh.
Qed.

Lemma quiet_try_catch {A : Type} (body : M A) (handler : Js.Error → M A) :
  quiet body → (∀ e, quiet (handler e)) → quiet (try_catch body handler).
Proof.
  intros Hb Hh w. eapply same_store_trans; [apply Hb | by apply after_try_catch].
Qed.

Ltac quiet :=
  repeat first
    [ apply quiet_ret | apply quiet_throw | apply quiet_call | apply quiet_gets
    | apply quiet_console_write
    | apply quiet_bind; [|intros ?]
    | apply quiet_try_catch; [|intros ?] ].

Lemma quiet_localWalletProvider (key : Value) : quiet (localWalletProvider key).
Proof. unfold localWalletProvider, console_log. quiet. Qed.

Lemma quiet_assembleActionProviders : quiet assembleActionProviders.
Proof.
  unfold assembleActionProviders, process_env. quiet.
  match goal with |- quiet (if ?b then _ else _) => destruct b end; quiet.
Qed.

Lemma quiet_execute (args : Value) : quiet (getFlowBalance_execute args).
Proof. unfold getFlowBalance_execute, console_error. quiet. Qed.


Lemma truthy_true_inv (o : option string) :
  truthy o = true → ∃ k, o = Some k ∧ k ≠ "".
Proof.
  destruct o as [k|]; [|discriminate]. intros H. exists k. split; [reflexivity|].
  intros ->. discriminate.
Qed.

Lemma resolve_settled (w : World) :
  truthy (env w !! "PRIVATE_KEY") = true ∨ is_Some (fs w !! WALLET_DATA_FILE) →
  same_store w (fst (resolvePrivateKey w)).
Proof.
  destruct (truthy (env w !! "PRIVATE_KEY")) eqn:Henv.
  - intros _. destruct (truthy_true_inv _ Henv) as (k & Hk & Hne).
    rewrite (resolve_env w k Hk Hne). apply same_store_refl.
  - intros [?|[content Hfile]]; [discriminate|].
    rewrite (resolve_file w content Henv Hfile).
    destruct (JSON_parse content) as [data|e]; [|apply same_store_refl].
    destruct (get data "privateKey"); [apply same_store_logged | apply same_store_refl].
Qed.

Lemma select_after (w : World) :
  same_store
    (match isClient w with Some _ => w | None => fst (resolvePrivateKey w) end)
    (fst (selectWalletProvider w)).
Proof.
  unfold selectWalletProvider.
  change (bind (gets isClient) ?k w) with (k (isClient w) w).
  destruct (isClient w) as [eth|].
  - cbv beta iota.
    match goal with |- same_store w (fst (?c w)) => assert (Hq : quiet c) end.
    { unfold console_log. quiet. }
    apply Hq.
  - cbv beta iota. apply after_bind. apply quiet_localWalletProvider.
Qed.

(** The store after the whole function is the one the key resolution left,
    or the one it started from when there is a browser wallet. *)
Lemma prepare_after (w : World) :
  same_store
    (match isClient w with Some _ => w | None => fst (resolvePrivateKey w) end)
    (fst (prepareAgentkitAndWalletProvider w)).
Proof.
  unfold prepareAgentkitAndWalletProvider.
  eapply same_store_trans;
    [|apply after_try_catch; intros e; unfold console_error; quiet].
  unfold prepareAgentkitAndWalletProvider_try.
  eapply same_store_trans;
    [|apply after_bind; intros wp;
      apply quiet_bind; [apply quiet_assembleActionProviders | intros aps; quiet]].
  apply select_after.
Qed.



Lemma not_settled (w : World) :
  ¬ settled w →
  isClient w = None ∧ truthy (env w !! "PRIVATE_KEY") = false
  ∧ fs w !! WALLET_DATA_FILE = None.
Proof.
  intros H. unfold settled in H. repeat split.
  - destruct (isClient w) eqn:E; [|reflexivity]. exfalso. apply H. left. eauto.
  - destruct (truthy _) eqn:E; [|reflexivity]. exfalso. apply H. right. by left.
  - destruct (fs w !! _) eqn:E; [|reflexivity]. exfalso. apply H. right. right. eauto.
Qed.

Lemma prepare_settled (w : World) :
  settled w → same_store w (fst (prepareAgentkitAndWalletProvider w)).
Proof.
  intros Hs. pose proof (prepare_after w) as H.
  destruct (isClient w) as [eth|] eqn:Hc; [exact H|].
  eapply same_store_trans; [|exact H].
  apply resolve_settled. destruct Hs as [[? ?]|Hs]; [congruence | exact Hs].
Qed.

Lemma prepare_fresh (w : World) :
  ¬ settled w →
  let k := generatePrivateKey (entropy w) in
  let w' := fst (prepareAgentkitAndWalletProvider w) in
  env w' = env w ∧ window w' = window w
  ∧ fs w' = <[WALLET_DATA_FILE := JSON_stringify [("privateKey", VString k)]]> (fs w)
  ∧ entropy w' = S (entropy w)
  ∧ console w `prefix_of` console w'.
Proof.
  intros Hs k w'. destruct (not_settled w Hs) as (Hc & Henv & Hfile).
  pose proof (prepare_after w) as H. rewrite Hc in H.
  rewrite (resolve_fresh w Henv Hfile) in H. cbn [fst] in H.
  destruct H as (He & Hw & Hf & Hn & Hp). fold w' in He, Hw, Hf, Hn, Hp.
  repeat split; try assumption.
  etrans; [|exact Hp]. cbn. rewrite <- app_assoc. by eexists.
Qed.

(** X1: the function never changes the environment or [window], only adds
    to the console, and never touches a file other than the key file.  When
    there is a browser wallet, a key in the environment or a key file, it
    writes no file and draws no key, whether it returns or throws;
    otherwise it creates the key file with the next key of the stream,
    also when it then throws. *)
Theorem initialization_touches_only_key_file (w : World) :
  let w' := fst (prepareAgentkitAndWalletProvider w) in
  env w' = env w
  ∧ window w' = window w
  ∧ console w `prefix_of` console w'
  ∧ (∀ path, path ≠ WALLET_DATA_FILE → fs w' !! path = fs w !! path)
  ∧ (settled w → fs w' = fs w ∧ entropy w' = entropy w)
  ∧ (¬ settled w →
       fs w' = <[WALLET_DATA_FILE :=
                  JSON_stringify [("privateKey", VString (generatePrivateKey (entropy w)))]]> (fs w)
       ∧ entropy w' = S (entropy w)).
Proof.
  intros w'.
  assert (Hdec : settled w ∨ ¬ settled w).
  { unfold settled. destruct (isClient w); [left; left; eauto|].
    destruct (truthy _); [left; right; by left|].
    destruct (fs w !! WALLET_DATA_FILE); [left; right; right; eauto|].
    right. intros [[? ?]|[?|[? ?]]]; discriminate. }
  assert (Hs : settled w → same_store w w') by apply prepare_settled.
  assert (Hf : ¬ settled w → _) by apply (prepare_fresh w).
  cbv zeta in Hf. fold w' in Hf.
  split; [|split; [|split; [|split; [|split]]]].
  - destruct Hdec as [H|H]; [apply (Hs H) | apply (Hf H)].
  - destruct Hdec as [H|H]; [apply (Hs H) | apply (Hf H)].
  - destruct Hdec as [H|H]; [apply (Hs H) | apply (Hf H)].
  - intros path Hpath. destruct Hdec as [H|H].
    + destruct (Hs H) as (_ & _ & -> & _). reflexivity.
    + destruct (Hf H) as (_ & _ & -> & _). by rewrite lookup_insert_ne.
  - intros H. destruct (Hs H) as (_ & _ & ? & ? & _). by split.
  - intros H. destruct (Hf H) as (_ & _ & ? & ? & _). by split.
Qed.


End FrameFacts.

(** ** More on the server *)

Section ServerMore.
Import Server Frame.
Context {P : Platform} {R : Runtime}.

(** X3: with a browser wallet the wallet provider does not depend on the
    environment, on the files or on the random stream: two worlds with the
    same injected provider give the same outcome. *)
Theorem browser_wallet_ignores_keys (w w' : World) (eth : Ethereum) :
  isClient w = Some eth → isClient w' = Some eth →
  snd (selectWalletProvider w) = snd (selectWalletProvider w').
Proof.
  intros Hw Hw'. cbv beta iota delta [selectWalletProvider bind gets call].
  rewrite Hw, Hw'.
  destruct (createWalletClient _) as [client|e]; [|reflexivity].
  destruct (ViemWalletProvider client) as [wp|e]; reflexivity.
Qed.



(** X5: a key file whose JSON is [null] makes the initialization fail with
    the generic error; a key file whose JSON is an object without a
    [privateKey] is reported as found and [undefined] is handed on as the
    key. *)
Theorem key_file_without_key (w : World) (content : string) :
  isClient w = None →
  truthy (env w !! "PRIVATE_KEY") = false →
  fs w !! WALLET_DATA_FILE = Some content →
  (JSON_parse content = Ok VNull →
     ∃ e, prepareAgentkitAndWalletProvider w
          = (logged LError "Error initializing agent:" (Some e) w,
             Throw (new_Error "Failed to initialize agent"))
        ∧ Js.name e = "TypeError")
  ∧ (∀ fields, JSON_parse content = Ok (VObject fields) →
       lookup_field "privateKey" fields = VUndefined →
       selectWalletProvider w
       = localWalletProvider VUndefined
           (logged LInfo "Found private key in wallet_data.txt" None w)).
Proof.
  intros Hclient Henv Hfile. split.
  - intros Hparse. eexists. split.
    + apply prepare_catches, select_throws, resolve_throws; [done|].
      rewrite (resolve_file w content Henv Hfile), Hparse. reflexivity.
    + reflexivity.
  - intros fields Hparse Hfield.
    apply select_local; [done|].
    rewrite (resolve_file w content Henv Hfile), Hparse. cbn [get]. by rewrite Hfield.
Qed.

(** X6: when the address is not a string, [execute] of [getFlowBalance]
    throws a [TypeError], after logging that same error; when the argument
    has no properties to read (null, undefined), the error is thrown before
    the [try] and nothing is logged. *)
Theorem getFlowBalance_rejects_other_addresses (args v : Value) (w : World) :
  (get args "address" = Ok v → (∀ s, v ≠ VString s) →
     ∃ e, getFlowBalance_execute args w
          = (logged LError "Error getting Flow balance:" (Some e) w, Throw e)
        ∧ Js.name e = "TypeError")
  ∧ (∀ e, get args "address" = Throw e →
       getFlowBalance_execute args w = (w, Throw e)).
Proof.
  split.
  - intros Hget Hv. unfold getFlowBalance_execute.
    rewrite (bind_ok _ _ w w v) by (unfold call; by rewrite Hget).
    destruct v as [| | | |s| |]; try (eexists; split; reflexivity).
    by destruct (Hv s).
  - intros e Hget. unfold getFlowBalance_execute.
    apply bind_throw. unfold call. by rewrite Hget.
Qed.

End ServerMore.

(** ** More on the chat *)

Section ChatMore.
Import Chat View ChatPage.

Lemma replies_app_user (l : list Message) (m : Message) :
  sender m = user → replies_follow_questions l → replies_follow_questions (l ++ [m]).
Proof.
  intros Hm Hl i x Hi Hx.
  destruct (decide (i < length l)) as [Hlt|Hge].
  - rewrite lookup_app_l in Hi by done.
    destruct (Hl i x Hi Hx) as (j & q & -> & Hj & Hq).
    exists j, q. split; [done|]. split; [|done].
    rewrite lookup_app_l by lia. done.
  - rewrite lookup_app_r in Hi by lia.
    destruct (i - length l) as [|n]; [|done].
    injection Hi as <-. congruence.
Qed.

Lemma replies_app_agent (l : list Message) (q m : Message) :
  last l = Some q → sender q = user →
  replies_follow_questions l → replies_follow_questions (l ++ [m]).
Proof.
  intros Hlast Hq Hl i x Hi Hx.
  destruct (decide (i < length l)) as [Hlt|Hge].
  - rewrite lookup_app_l in Hi by done.
    destruct (Hl i x Hi Hx) as (j & q' & -> & Hj & Hq').
    exists j, q'. split; [done|]. split; [|done].
    rewrite lookup_app_l by lia. done.
  - rewrite lookup_app_r in Hi by lia.
    destruct (i - length l) as [|n] eqn:Hn; [|done].
    rewrite last_lookup in Hlast.
    assert (Hlen : length l ≠ 0).
    { intros H0. rewrite H0 in Hlast. by destruct l. }
    exists (pred (length l)), q. split; [lia|]. split; [|done].
    rewrite lookup_app_l by lia. done.
Qed.

Lemma step_history (p : Page) (ev : PageEvent) :
  idle_or_waiting p ∧ replies_follow_questions (messages (chat p)) ∧ waiting_on_last p →
  replies_follow_questions (messages (chat (step p ev))) ∧ waiting_on_last (step p ev).
Proof.
  intros (Hidle & Hrep & Hwait). destruct ev as [v| |i o]; cbn [step].
  - split; assumption.
  - unfold onSendMessage.
    destruct (negb (truthy (Some (trim (input p)))) || isThinking (chat p)) eqn:Hguard;
      [split; assumption|].
    apply orb_false_elim in Hguard as [Hblank Hthinking].
    destruct Hidle as [[_ Hq]|[Ht _]]; [|congruence].
    cbn [setInput chat input inFlight]. unfold sendMessage. rewrite Hblank.
    cbn [setMessages setIsThinking messages chat inFlight]. split.
    + by apply replies_app_user.
    + intros request. rewrite Hq. intros [= <-]. cbn. by rewrite last_snoc.
  - destruct (inFlight p !! i) as [request|] eqn:Hi; [|split; assumption].
    destruct Hidle as [[_ Hq]|[_ [r Hq]]]; rewrite Hq in Hi; [discriminate|].
    destruct i as [|i]; [|discriminate].
    cbn [chat inFlight]. split.
    + unfold sendMessage_resume.
      destruct (messageAgent o) as [reply|]; [|exact Hrep].
      destruct (truthy (Some reply)); [|exact Hrep].
      cbn [setMessages setIsThinking messages].
      eapply replies_app_agent; [apply (Hwait r Hq) | reflexivity | exact Hrep].
    + intros request'. rewrite Hq. discriminate.
Qed.

Lemma run_history (evs : list PageEvent) (p : Page) :
  idle_or_waiting p ∧ replies_follow_questions (messages (chat p)) ∧ waiting_on_last p →
  replies_follow_questions (messages (chat (run evs p))) ∧ waiting_on_last (run evs p).
Proof.
  revert p. induction evs as [|ev evs IH]; intros p Hp; [apply Hp|].
  apply IH. split; [apply step_idle_or_waiting, Hp | apply step_history, Hp].
Qed.

(** X7: in every state the page reaches, each agent entry of the history
    comes right after a user entry (the history never starts with a reply
    and never shows two replies in a row), and while a call is in flight
    the last entry is the user's message that the request carries. *)
Theorem replies_answer_the_last_question (evs : list PageEvent) :
  let p := run evs Home in
  replies_follow_questions (messages (chat p))
  ∧ (∀ request, inFlight p = [request] →
       last (messages (chat p)) = Some {| text := userMessage request; sender := user |}).
Proof.
  apply run_history. split; [left; split; reflexivity|].
  split.
  - intros i m Hi. discriminate.
  - intros request. discriminate.
Qed.

(** X8: a whole exchange.  A non-blank text is typed and sent, and the
    network call ends: with a reply that is not empty, the page shows the
    question and the reply; with no reply, the page shows the question
    alone.  Either way the text field is empty, the flag is down and
    nothing is in flight. *)
Theorem exchange (q : string) (o : FetchOutcome) :
  trim q ≠ "" →
  (∀ r, messageAgent o = Some r → r ≠ "" →
     run [Change q; Send; Reply 0 o] Home
     = {| input := "";
          chat := {| messages := [{| text := q; sender := user |};
                                  {| text := r; sender := agent |}];
                     isThinking := false |};
          inFlight := [] |})
  ∧ (messageAgent o = None ∨ messageAgent o = Some "" →
     run [Change q; Send; Reply 0 o] Home
     = {| input := "";
          chat := {| messages := [{| text := q; sender := user |}];
                     isThinking := false |};
          inFlight := [] |}).
Proof.
  intros Hq.
  assert (Hsent : run [Change q; Send] Home
                  = {| input := "";
                       chat := {| messages := [{| text := q; sender := user |}];
                                  isThinking := true |};
                       inFlight := [messageAgent_fetch q] |}).
  { change (run [Change q; Send] Home)
      with (onSendMessage {| input := q; chat := useAgent; inFlight := [] |}).
    unfold onSendMessage. cbn [input chat inFlight setInput].
    rewrite (truthy_trim q Hq), (sendMessage_sends q _ Hq). reflexivity. }
  change (run [Change q; Send; Reply 0 o] Home)
    with (step (run [Change q; Send] Home) (Reply 0 o)).
  rewrite Hsent. cbn [step inFlight chat input lookup list_lookup delete list_delete].
  split.
  - intros r Ho Hr. by rewrite (resume_appends o _ r Ho Hr).
  - intros Ho. by rewrite (resume_drops o _ Ho).
Qed.

(** X9: the send button is disabled exactly when [onSendMessage] does
    nothing, so Enter in the text field does what a click would do.  When
    the button is enabled, a send empties the text field and adds one
    entry, with the text as it was typed, to the history. *)
Theorem send_button_matches_guard (p : Page) :
  (fst (sendButton p) = true ↔ onSendMessage p = p)
  ∧ (fst (sendButton p) = false →
       input (onSendMessage p) = ""
       ∧ messages (chat (onSendMessage p))
         = messages (chat p) ++ [{| text := input p; sender := user |}]).
Proof.
  assert (Henabled : fst (sendButton p) = false →
       input (onSendMessage p) = ""
       ∧ messages (chat (onSendMessage p))
         = messages (chat p) ++ [{| text := input p; sender := user |}]).
  { unfold sendButton. cbn [fst]. intros H.
    apply orb_false_elim in H as [Ht Hb].
    unfold onSendMessage. rewrite Hb, Ht. cbn [orb setInput chat input inFlight].
    unfold sendMessage. rewrite Hb. split; reflexivity. }
  split; [|exact Henabled]. split.
  - unfold sendButton. cbn [fst]. intros H. apply onSendMessage_ignored.
    apply orb_true_iff in H as [H|H]; [by right|left].
    apply negb_true_iff in H. unfold truthy in H. apply negb_false_iff in H.
    by apply String.eqb_eq in H.
  - intros Hsame. destruct (fst (sendButton p)) eqn:Hb; [reflexivity|exfalso].
    destruct (Henabled eq_refl) as [_ Hm]. rewrite Hsame in Hm.
    apply (f_equal length) in Hm. rewrite length_app in Hm. cbn in Hm. lia.
Qed.

(** X10: a response string in the body hides the error string: the history
    is what it would be without the error, and with an empty response the
    error is shown nowhere. *)
Theorem response_hides_error (r e : string) (h : AgentHook) :
  sendMessage_resume (JsonResolved {| response := Some r; error := Some e |}) h
  = sendMessage_resume (JsonResolved {| response := Some r; error := None |}) h
  ∧ messages (sendMessage_resume (JsonResolved {| response := Some ""; error := Some e |}) h)
    = messages h.
Proof. split; reflexivity. Qed.

End ChatMore.

(** ** More on the wallet hook *)

Section WalletMore.
Import Wallet View WalletPage.

Lemma accountsChanged_coherent (accounts : list string) (s : WalletHook) :
  coherent (accountsChanged accounts s).
Proof.
  destruct accounts as [|a rest]; unfold coherent; cbn; split; intros H;
    try done; try (destruct H; discriminate); eauto.
Qed.

Lemma adoptAccounts_coherent (accounts : RpcResult) (s : WalletHook) :
  coherent s → coherent (adoptAccounts accounts s).
Proof.
  intros Hs. destruct accounts as [[|a rest]|]; [exact Hs| |exact Hs].
  unfold coherent. cbn. split; eauto.
Qed.

Lemma resume_coherent (k : Awaiting) (o : Settled RpcResult) (s : WalletHook) :
  coherent s → coherent (fst (connectMetaMask_resume k o s)).
Proof.
  intros Hs. destruct k as [|accounts|accounts]; cbn [connectMetaMask_resume].
  - destruct o; exact Hs.
  - exact Hs.
  - cbn [fst]. destruct o.
    + apply (adoptAccounts_coherent accounts s Hs).
    + apply (adoptAccounts_coherent accounts
               (setError (Some "Failed to switch to Flow testnet") s)). exact Hs.
Qed.

Lemma step_coherent (p : Panel) (ev : Event) :
  coherent (hook p) → coherent (hook (step p ev)).
Proof.
  intros Hp. destruct ev as [accounts|o| |i o]; cbn [step].
  - destruct (listening p); [apply accountsChanged_coherent | exact Hp].
  - destruct (probing p); [|exact Hp]. cbn [hook].
    destruct o; [by apply adoptAccounts_coherent | exact Hp].
  - destruct (connectButton (metamask p) (hook p)) as [[[] label]|]; try exact Hp.
    unfold connectMetaMask. destruct (negb (metamask p)); exact Hp.
  - destruct (calls p !! i) as [k|]; [|exact Hp].
    pose proof (resume_coherent k o (hook p) Hp) as H.
    destruct (connectMetaMask_resume k o (hook p)) as [s k']. exact H.
Qed.

Lemma run_coherent (evs : list Event) (p : Panel) :
  coherent (hook p) → coherent (hook (run evs p)).
Proof.
  revert p. induction evs as [|ev evs IH]; intros p Hp; [exact Hp|].
  apply IH, step_coherent, Hp.
Qed.

Lemma mounted_coherent (isMetaMaskAvailable : bool) :
  coherent (hook (mounted isMetaMaskAvailable)).
Proof. destruct isMetaMaskAvailable; split; try done; intros [? ?]; discriminate. Qed.

(** X11: whatever happens to the mounted page (account changes, the probe of
    the mount, clicks, requests that settle), the hook says it is connected
    exactly when it holds an account; so when the panel shows the connected
    line there is an account whose short form it shows. *)
Theorem connected_iff_account (isMetaMaskAvailable : bool) (evs : list Event) :
  let p := run evs (mounted isMetaMaskAvailable) in
  (isConnected (hook p) = true ↔ is_Some (account (hook p)))
  ∧ (∀ shown, statusPanel (metamask p) (hook p) = Connected shown →
       ∃ a, account (hook p) = Some a ∧ shown = shortAddress (Some a)).
Proof.
  intros p.
  assert (Hp : coherent (hook p)) by apply run_coherent, mounted_coherent.
  split; [exact Hp|].
  intros shown. unfold statusPanel.
  destruct (metamask p); [|discriminate].
  destruct (isConnected (hook p)) eqn:Hc; [|discriminate].
  destruct (proj1 Hp Hc) as [a Ha]. intros [= <-].
  exists a. by rewrite Ha.
Qed.

Lemma resume_connecting (k : Awaiting) (o : Settled RpcResult) (s : WalletHook) :
  match snd (connectMetaMask_resume k o s) with
  | Some _ => isConnecting (fst (connectMetaMask_resume k o s)) = isConnecting s
  | None => isConnecting (fst (connectMetaMask_resume k o s)) = false
  end.
Proof. destruct k, o; reflexivity. Qed.

Lemma step_idle_or_connecting (p : Panel) (ev : Event) :
  idle_or_connecting p → idle_or_connecting (step p ev).
Proof.
  intros Hp. destruct ev as [accounts|o| |i o]; cbn [step].
  - destruct (listening p); [|exact Hp].
    unfold idle_or_connecting. cbn [hook calls with_hook].
    by rewrite (proj2 (accountsChanged_keeps accounts (hook p))).
  - destruct (probing p); [|exact Hp].
    unfold idle_or_connecting. cbn [hook calls].
    replace (isConnecting (checkConnection_resume o (hook p))) with (isConnecting (hook p));
      [exact Hp|].
    destruct o as [[[|a rest]|]|e]; reflexivity.
  - unfold connectButton.
    destruct (metamask p) eqn:Hm; [|exact Hp].
    destruct (isConnected (hook p)); [exact Hp|]. cbn [andb negb].
    destruct (isConnecting (hook p)) eqn:Hc; [exact Hp|].
    destruct Hp as [[_ Hq]|[Ht _]]; [|congruence].
    right. unfold connectMetaMask. cbn [negb hook calls]. rewrite Hq.
    split; [reflexivity | eauto].
  - destruct (calls p !! i) as [k|] eqn:Hi; [|exact Hp].
    destruct Hp as [[_ Hq]|[Ht [k0 Hq]]]; rewrite Hq in Hi; [discriminate|].
    destruct i as [|i]; [|discriminate]. injection Hi as ->.
    pose proof (resume_connecting k o (hook p)) as H.
    destruct (connectMetaMask_resume k o (hook p)) as [s [k'|]]; cbn [fst snd] in H.
    + right. cbn [hook calls]. rewrite Hq. split; [congruence | eauto].
    + left. cbn [hook calls]. rewrite Hq. split; [exact H | reflexivity].
Qed.

Lemma run_idle_or_connecting (evs : list Event) (p : Panel) :
  idle_or_connecting p → idle_or_connecting (run evs p).
Proof.
  revert p. induction evs as [|ev evs IH]; intros p Hp; [exact Hp|].
  apply IH, step_idle_or_connecting, Hp.
Qed.

(** X12: in every state the mounted page reaches, [isConnecting] is true
    exactly while one call of [connectMetaMask] waits for a request, and
    never more than one call waits; and a call that ends, however its
    request settled, ends with [isConnecting] false. *)
Theorem connecting_while_in_flight (isMetaMaskAvailable : bool) (evs : list Event) :
  let p := run evs (mounted isMetaMaskAvailable) in
  (isConnecting (hook p) = true ↔ ∃ k, calls p = [k])
  ∧ (isConnecting (hook p) = false ↔ calls p = [])
  ∧ (∀ k o s, snd (connectMetaMask_resume k o s) = None →
       isConnecting (fst (connectMetaMask_resume k o s)) = false).
Proof.
  intros p.
  assert (Hp : idle_or_connecting p).
  { apply run_idle_or_connecting. left. by destruct isMetaMaskAvailable. }
  split; [|split].
  - destruct Hp as [[Ht Hq]|[Ht Hq]]; rewrite Ht; split; try done.
    intros [k Hk]. congruence.
  - destruct Hp as [[Ht Hq]|[Ht [k Hq]]]; rewrite Ht, Hq; split; done.
  - intros k o s H. pose proof (resume_connecting k o s) as Hr. by rewrite H in Hr.
Qed.

(** X13: without MetaMask the mount sets the error [MetaMask is not
    installed], sends no request and registers no listener; the panel shows
    that MetaMask is not detected, with no connect button, and nothing that
    happens changes the page.  A direct call of [connectMetaMask] sets the
    same error and does not raise [isConnecting]. *)
Theorem without_metamask (evs : list Event) (s : WalletHook) :
  run evs (mounted false) = mounted false
  ∧ hook (mounted false)
    = {| account := None; isConnected := false; isConnecting := false;
         error := Some "MetaMask is not installed" |}
  ∧ probing (mounted false) = false ∧ listening (mounted false) = false
  ∧ statusPanel false (hook (mounted false)) = NotDetected
  ∧ connectButton false (hook (mounted false)) = None
  ∧ connectMetaMask false s
    = ({| account := account s; isConnected := isConnected s;
          isConnecting := isConnecting s;
          error := Some "MetaMask is not installed" |}, None).
Proof.
  split; [|by repeat split].
  induction evs as [|ev evs IH]; [reflexivity|].
  change (run (ev :: evs) (mounted false)) with (run evs (step (mounted false) ev)).
  replace (step (mounted false) ev) with (mounted false); [exact IH|].
  destruct ev as [accounts|o| |[|i] o]; reflexivity.
Qed.


Lemma deliver_app (evs1 evs2 : list (list string)) (s : WalletHook) :
  deliver (evs1 ++ evs2) s = deliver evs2 (deliver evs1 s).
Proof. unfold deliver. apply fold_left_app. Qed.

Lemma deliver_setError (evs : list (list string)) (e : option string) (s : WalletHook) :
  deliver evs (setError e s) = setError e (deliver evs s).
Proof.
  revert s. induction evs as [|accounts evs IH]; intros s; [reflexivity|].
  cbn [deliver fold_left]. fold (deliver evs (accountsChanged accounts (setError e s))).
  fold (deliver evs (accountsChanged accounts s)).
  rewrite <- IH. f_equal. by destruct accounts.
Qed.

Lemma deliver_setIsConnecting (evs : list (list string)) (b : bool) (s : WalletHook) :
  deliver evs (setIsConnecting b s) = setIsConnecting b (deliver evs s).
Proof.
  revert s. induction evs as [|accounts evs IH]; intros s; [reflexivity|].
  cbn [deliver fold_left]. fold (deliver evs (accountsChanged accounts (setIsConnecting b s))).
  fold (deliver evs (accountsChanged accounts s)).
  rewrite <- IH. f_equal. by destruct accounts.
Qed.

(** X14: when the authorization request is rejected, the call of
    [connectMetaMask] ends there: it sends no further request, sets the
    error [Failed to connect to MetaMask], lowers [isConnecting], and leaves
    the account and [isConnected] as the [accountsChanged] events left
    them. *)
Theorem authorization_rejected (s : WalletHook) (e : Js.Error)
    (evs : list (list string)) (rest : list (list (list string) * Settled RpcResult)) :
  connectMetaMask_call true ((evs, Rejected e) :: rest) s
  = {| account := account (deliver evs s); isConnected := isConnected (deliver evs s);
       isConnecting := false; error := Some "Failed to connect to MetaMask" |}.
Proof.
  unfold connectMetaMask_call. cbn [connectMetaMask negb drive connectMetaMask_resume].
  rewrite deliver_setError, deliver_setIsConnecting.
  destruct rest; reflexivity.
Qed.

(** X15: when the authorization gives no account (an empty list, or null),
    the call still asks to add and to switch the network, and ends without
    setting an account: the account and [isConnected] are as the
    [accountsChanged] events left them, [isConnecting] is false, and the
    error is the switch error when the switch was rejected and null
    otherwise. *)
Theorem authorization_without_account (s : WalletHook) (accounts : RpcResult)
    (add switch : Settled RpcResult) (evs1 evs2 evs3 : list (list string)) :
  accounts = None ∨ accounts = Some [] →
  connectMetaMask_call true [(evs1, Resolved accounts); (evs2, add); (evs3, switch)] s
  = {| account := account (deliver (evs1 ++ evs2 ++ evs3) s);
       isConnected := isConnected (deliver (evs1 ++ evs2 ++ evs3) s);
       isConnecting := false;
       error := match switch with
                | Resolved _ => None
                | Rejected _ => Some "Failed to switch to Flow testnet"
                end |}.
Proof.
  intros Hacc. unfold connectMetaMask_call.
  cbn [connectMetaMask negb drive connectMetaMask_resume].
  rewrite !deliver_app, !deliver_setError, !deliver_setIsConnecting.
  destruct Hacc as [-> | ->]; destruct switch; reflexivity.
Qed.

(** X16: what the page shows once the probe of the mount has settled.  With
    MetaMask, the mount asks for the accounts and registers the listener;
    an account list that is not empty gives the connected line with the
    first account and no connect button; an empty or null list gives the
    not-connected line and the enabled button; a rejection gives the same
    with the error [Failed to check MetaMask connection]. *)
Theorem probe_on_mount (o : Settled RpcResult) :
  let p := run [Probed o] (mounted true) in
  probing (mounted true) = true ∧ listening (mounted true) = true
  ∧ hook (mounted true) = useMetaMask
  ∧ probing p = false
  ∧ match o with
    | Resolved (Some (a :: _)) =>
        statusPanel true (hook p) = Connected (shortAddress (Some a))
        ∧ connectButton true (hook p) = None
        ∧ errorBanner (hook p) = None
    | Resolved _ =>
        statusPanel true (hook p) = NotConnected
        ∧ connectButton true (hook p) = Some (false, "Connect MetaMask")
        ∧ errorBanner (hook p) = None
    | Rejected _ =>
        statusPanel true (hook p) = NotConnected
        ∧ connectButton true (hook p) = Some (false, "Connect MetaMask")
        ∧ errorBanner (hook p) = Some "Failed to check MetaMask connection"
    end.
Proof. destruct o as [[[|a rest]|]|e]; repeat split. Qed.

Lemma resume_error (k : Awaiting) (o : Settled RpcResult) (s : WalletHook) :
  Wallet.error (fst (connectMetaMask_resume k o s)) = None → Wallet.error s = None.
Proof.
  destruct k as [|accounts|accounts], o as [result|err]; cbn; try done;
    destruct accounts as [[|a rest]|]; cbn; done.
Qed.

(** X17: an error of the hook is cleared by nothing but a click on the
    connect button while that button is rendered and enabled, that is
    while the hook is neither connected nor connecting. *)
Theorem error_cleared_only_by_connect (p : Panel) (ev : Event) :
  is_Some (Wallet.error (hook p)) →
  Wallet.error (hook (step p ev)) = None →
  ev = Click
  ∧ metamask p = true
  ∧ isConnected (hook p) = false
  ∧ isConnecting (hook p) = false.
Proof.
  intros [msg Hmsg] Hnone. destruct ev as [accounts|o| |i o]; cbn [step] in Hnone.
  - exfalso. destruct (listening p); [|congruence].
    cbn [hook with_hook] in Hnone.
    rewrite (proj1 (accountsChanged_keeps accounts (hook p))) in Hnone. congruence.
  - exfalso. destruct (probing p); [|congruence]. cbn [hook] in Hnone.
    destruct o as [[[|a rest]|]|e]; cbn in Hnone; congruence.
  - unfold connectButton in Hnone.
    destruct (metamask p); cbn [andb] in Hnone; [|congruence].
    destruct (isConnected (hook p)); cbn [negb] in Hnone; [congruence|].
    destruct (isConnecting (hook p)); [congruence|]. done.
  - exfalso. destruct (calls p !! i) as [k|]; [|congruence].
    pose proof (resume_error k o (hook p)) as H.
    destruct (connectMetaMask_resume k o (hook p)) as [s k']. cbn [hook fst] in *.
    rewrite (H Hnone) in Hmsg. discriminate.
Qed.

End WalletMore.

(** ** The short form of the account *)

Section ViewFacts.
Import View.

Lemma length_append (s1 s2 : string) :
  String.length (s1 +:+ s2) = String.length s1 + String.length s2.
Proof.
  induction s1 as [|c s1 IH]; [reflexivity|].
  rewrite append_cons. cbn [String.length]. by rewrite IH.
Qed.

Lemma length_substring_0 (n : nat) (s : string) :
  String.length (String.substring 0 n s) = min n (String.length s).
Proof.
  revert n. induction s as [|c s IH]; intros [|n]; try reflexivity.
  cbn. by rewrite IH.
Qed.

Lemma substring_all (s : string) : String.substring 0 (String.length s) s = s.
Proof. induction s as [|c s IH]; [reflexivity|]. cbn. by rewrite IH. Qed.

Lemma substring_split (n : nat) (s : string) :
  n ≤ String.length s →
  s = String.substring 0 n s +:+ substring_from n s.
Proof.
  unfold substring_from. revert n. induction s as [|c s IH]; intros [|n] Hn.
  - reflexivity.
  - cbn in Hn. lia.
  - cbn [String.substring String.length Nat.sub]. by rewrite substring_all.
  - cbn in Hn. cbn [String.substring String.length Nat.sub]. rewrite append_cons.
    rewrite <- (IH n) by lia. reflexivity.
Qed.

Lemma substring_skip (p r : string) (k m : nat) :
  String.substring (String.length p + k) m (p +:+ r) = String.substring k m r.
Proof.
  induction p as [|c p IH]; [reflexivity|].
  rewrite append_cons. cbn [String.length Nat.add String.substring]. exact IH.
Qed.

Lemma length_substring_from (k : nat) (s : string) :
  k ≤ String.length s → String.length (substring_from k s) = String.length s - k.
Proof.
  intros Hk. pose proof (substring_split k s Hk) as H.
  apply (f_equal String.length) in H.
  rewrite length_append, length_substring_0 in H. lia.
Qed.

(** X18: the short form of an account shown in the panel has as many
    characters as its first six (or fewer), three dots and its last four
    (or fewer).  For an account of ten characters or more it is the first
    six, the dots and the last four, the middle left out; for an account of
    four characters or fewer the whole account is shown twice. *)
Theorem shortAddress_shape (a : string) :
  String.length (shortAddress (Some a))
  = min 6 (String.length a) + 3 + min 4 (String.length a)
  ∧ (10 ≤ String.length a →
       ∃ first middle last,
         a = first +:+ middle +:+ last
         ∧ String.length first = 6 ∧ String.length last = 4
         ∧ shortAddress (Some a) = first +:+ "..." +:+ last)
  ∧ (String.length a ≤ 4 → shortAddress (Some a) = a +:+ "..." +:+ a).
Proof.
  split; [|split].
  - unfold shortAddress. rewrite !length_append, length_substring_0.
    rewrite length_substring_from by lia.
    change (String.length "...") with 3. lia.
  - intros Hlen.
    set (first := String.substring 0 6 a).
    set (rest := substring_from 6 a).
    set (k := String.length a - 10).
    assert (Ha : a = first +:+ rest) by (apply substring_split; lia).
    assert (Hfirst : String.length first = 6).
    { unfold first. rewrite length_substring_0. lia. }
    assert (Hrest : String.length rest = String.length a - 6).
    { unfold rest. apply length_substring_from. lia. }
    assert (Hsplit : rest = String.substring 0 k rest +:+ substring_from k rest).
    { apply substring_split. lia. }
    exists first, (String.substring 0 k rest), (substring_from k rest).
    split; [by rewrite <- Hsplit|]. split; [exact Hfirst|].
    split; [rewrite length_substring_from by lia; lia|].
    unfold shortAddress. fold first. do 2 f_equal.
    unfold substring_from at 1.
    replace (String.length a - (String.length a - 4)) with 4 by lia.
    rewrite Ha at 2.
    replace (String.length a - 4) with (String.length first + k) by lia.
    rewrite substring_skip. unfold substring_from.
    by replace (String.length rest - k) with 4 by lia.
  - intros Hlen. unfold shortAddress, substring_from.
    replace (String.length a - 4) with 0 by lia.
    rewrite Nat.sub_0_r, substring_all.
    replace (String.substring 0 6 a) with a; [reflexivity|].
    rewrite <- (substring_all a) at 1.
    clear -Hlen. revert Hlen.
    assert (H : ∀ n, String.length a ≤ n → String.substring 0 (String.length a) a = String.substring 0 n a).
    { induction a as [|c a IH]; intros [|n] Hn; cbn in *; try reflexivity; try lia.
      rewrite (IH n) by lia. reflexivity. }
    intros Hlen. apply H. lia.
Qed.

End ViewFacts.

(** ** On the reference runtime and on sample pages *)

Section MoreExamples.
Import Server Frame Reference.

Lemma initialization_touches_only_key_file_witness :
  let w' := fst (prepareAgentkitAndWalletProvider bare) in
  let busy := with_env "hunter2" bare in
  fs w' !! "notes.txt" = fs bare !! "notes.txt"
  ∧ fs w' = <[WALLET_DATA_FILE := stringify [("privateKey", VString (reference_key 5))]]> (fs bare)
  ∧ entropy w' = 6
  ∧ fs (fst (prepareAgentkitAndWalletProvider busy)) = fs busy
  ∧ entropy (fst (prepareAgentkitAndWalletProvider busy)) = entropy busy.
Proof.
  intros w' busy.
  destruct (initialization_touches_only_key_file bare) as (_ & _ & _ & Hpath & _ & Hfresh).
  destruct (initialization_touches_only_key_file busy) as (_ & _ & _ & _ & Hsettled & _).
  assert (Hbare : ¬ settled bare).
  { intros [[? H]|[H|[? H]]]; discriminate. }
  split; [apply Hpath; discriminate|].
  split; [apply (Hfresh Hbare)|].
  split; [apply (Hfresh Hbare)|].
  apply Hsettled. right. left. reflexivity.
Defined.

Lemma browser_wallet_ignores_keys_witness :
  let browser := {| env := ∅; fs := ∅; window := Some {| ethereum := Some tt |};
                    console := []; entropy := 0 |} in
  snd (selectWalletProvider browser)
  = snd (selectWalletProvider
           (with_env "hunter2" (with_file "{privateKey:0xab}" browser))).
Proof.
  intros browser.
  apply (browser_wallet_ignores_keys browser _ tt); reflexivity.
Defined.


Lemma key_file_without_key_witness :
  (∃ e, prepareAgentkitAndWalletProvider (with_file "null" bare)
        = (logged LError "Error initializing agent:" (Some e) (with_file "null" bare),
           Throw (new_Error "Failed to initialize agent"))
      ∧ Js.name e = "TypeError")
  ∧ selectWalletProvider (with_file "{}" bare)
    = localWalletProvider VUndefined
        (logged LInfo "Found private key in wallet_data.txt" None (with_file "{}" bare)).
Proof.
  split.
  - apply (key_file_without_key (with_file "null" bare) "null"); reflexivity.
  - apply (proj2 (key_file_without_key (with_file "{}" bare) "{}" eq_refl eq_refl eq_refl)
             []); reflexivity.
Defined.

Lemma getFlowBalance_rejects_other_addresses_witness :
  (∃ e, getFlowBalance_execute (VObject [("address", VNumber "42")]) bare
        = (logged LError "Error getting Flow balance:" (Some e) bare, Throw e)
      ∧ Js.name e = "TypeError")
  ∧ getFlowBalance_execute VNull bare
    = (bare, Throw (TypeError "Cannot read properties of undefined or null, reading address")).
Proof.
  split.
  - apply (getFlowBalance_rejects_other_addresses _ (VNumber "42")); [reflexivity|].
    intros s. discriminate.
  - apply (getFlowBalance_rejects_other_addresses VNull VNull). reflexivity.
Defined.

End MoreExamples.

Section MorePageExamples.
Import Chat View ChatPage.

Lemma replies_answer_the_last_question_witness :
  let p := run [Change "hello"; Send] Home in
  last (messages (chat p)) = Some {| text := "hello"; sender := user |}.
Proof.
  intros p.
  apply (proj2 (replies_answer_the_last_question [Change "hello"; Send])
           (messageAgent_fetch "hello")).
  reflexivity.
Defined.

Lemma exchange_witness :
  run [Change "What is my wallet address?"; Send;
       Reply 0 (JsonResolved {| response := Some "0x1234"; error := None |})] Home
  = {| input := "";
       chat := {| messages := [{| text := "What is my wallet address?"; sender := user |};
                               {| text := "0x1234"; sender := agent |}];
                  isThinking := false |};
       inFlight := [] |}.
Proof.
  apply (exchange "What is my wallet address?"
           (JsonResolved {| response := Some "0x1234"; error := None |}));
    [discriminate | reflexivity | discriminate].
Defined.

Lemma send_button_matches_guard_witness :
  let typed := run [Change " hello "] Home in
  let blank := run [Change "   "] Home in
  fst (sendButton typed) = false
  ∧ input (onSendMessage typed) = ""
  ∧ messages (chat (onSendMessage typed)) = [{| text := " hello "; sender := user |}]
  ∧ onSendMessage blank = blank.
Proof.
  intros typed blank.
  destruct (send_button_matches_guard typed) as [_ Henabled].
  destruct (send_button_matches_guard blank) as [[Hdisabled _] _].
  split; [reflexivity|].
  split; [apply (Henabled eq_refl)|].
  split; [apply (Henabled eq_refl)|].
  apply Hdisabled. reflexivity.
Defined.

End MorePageExamples.

Section MoreWalletExamples.
Import Wallet View WalletPage.

Lemma connected_iff_account_witness :
  let p := run [Probed (Resolved (Some ["0x1234567890abcdef"]))] (mounted true) in
  isConnected (hook p) = true
  ∧ is_Some (account (hook p))
  ∧ ∃ a, account (hook p) = Some a ∧ "0x1234...cdef" = shortAddress (Some a).
Proof.
  intros p.
  destruct (connected_iff_account true [Probed (Resolved (Some ["0x1234567890abcdef"]))])
    as [Hiff Hshown].
  split; [reflexivity|].
  split; [apply Hiff; reflexivity|].
  apply Hshown. reflexivity.
Defined.

Lemma connecting_while_in_flight_witness :
  let p := run [Click] (mounted true) in
  isConnecting (hook p) = true
  ∧ ∃ k, calls p = [k].
Proof.
  intros p.
  destruct (connecting_while_in_flight true [Click]) as (Hiff & _).
  split; [reflexivity|]. apply Hiff. reflexivity.
Defined.

Lemma authorization_without_account_witness :
  connectMetaMask_call true
    [([], Resolved (Some [])); ([], Resolved None); ([], Resolved None)] useMetaMask
  = useMetaMask.
Proof.
  apply (authorization_without_account useMetaMask (Some []) (Resolved None) (Resolved None)
           [] [] []).
  right. reflexivity.
Defined.

Lemma error_cleared_only_by_connect_witness :
  let p := run [Probed (Rejected (TypeError "disconnected"))] (mounted true) in
  Wallet.error (hook p) = Some "Failed to check MetaMask connection"
  ∧ Wallet.error (hook (step p Click)) = None
  ∧ isConnected (hook p) = false
  ∧ isConnecting (hook p) = false.
Proof.
  intros p.
  destruct (error_cleared_only_by_connect p Click) as (_ & _ & Hc & Hg).
  { eexists. reflexivity. }
  { reflexivity. }
  split; [reflexivity|]. split; [reflexivity|]. split; [exact Hc | exact Hg].
Defined.

Lemma shortAddress_shape_witness :
  let a := "0xf39Fd6e51aad88F6F4ce6aB8827279cffFb92266" in
  String.length (shortAddress (Some a)) = 13
  ∧ ∃ first middle last,
      a = first +:+ middle +:+ last
      ∧ String.length first = 6 ∧ String.length last = 4
      ∧ shortAddress (Some a) = first +:+ "..." +:+ last.
Proof.
  intros a. destruct (shortAddress_shape a) as (Hlen & Hlong & _).
  split; [exact Hlen|]. apply Hlong. cbn. lia.
Defined.

End MoreWalletExamples.
